(** * stl-frames: the parametric frame generator of [app.js], embedded in Rocq

    The repository ships two revisions of the same browser module:
    [src/unnamed/part_000] (end-taper, woodgrain carving, corner inserts) and
    the earlier [src/js/app.js] (wood jitter only, no taper, no inserts).
    The main development follows [part_000]; the functions of [src/js/app.js]
    that differ are embedded in [Module AppJs].  [normalizeParams],
    [buildProfileShape] and [createLipOverlay]'s geometry are identical in both.

    Numbers.  A JavaScript Number is modelled as an extended rational: [NaN],
    the two infinities, or an exact finite value.  Rounding to binary64 and
    the sign of zero are not modelled; every comparison, every special value
    and every operator of the source is.  Exact arithmetic means that a
    finite sum or product never overflows to an infinity and never absorbs a
    small operand, and that vertex buffers hold the numbers written to them
    where three.js stores their float32 roundings: statements about sizes
    carry an explicit bound on the dimensions, inside which binary64 does not
    overflow either.

    Not modelled: vertex normals and bounding boxes (recomputed from the
    positions by three.js), the camera, the renderer, the form events and the
    archive. *)

From Stdlib Require Import QArith Qabs Lqa ZArith Bool List String.
From Stdlib Require Import Lia.
Import ListNotations.

Set Implicit Arguments.

(** ** JavaScript numbers *)

Module JsNumber.

Inductive number : Type :=
| NaN
| NegInf
| PosInf
| Fin (q : Q).

Definition Number_isFinite (a : number) : bool :=
  match a with Fin _ => true | _ => false end.

Definition zeroQ (q : Q) : bool := Qeq_bool q 0.
Definition posQ (q : Q) : bool := negb (Qle_bool q 0).

(** The infinity of the given sign ([true] is negative). *)
Definition inf (negative : bool) : number :=
  if negative then NegInf else PosInf.

Definition neg (a : number) : number :=
  match a with
  | NaN => NaN
  | NegInf => PosInf
  | PosInf => NegInf
  | Fin q => Fin (- q)
  end.

Definition add (a b : number) : number :=
  match a, b with
  | NaN, _ | _, NaN => NaN
  | PosInf, NegInf | NegInf, PosInf => NaN
  | PosInf, _ | _, PosInf => PosInf
  | NegInf, _ | _, NegInf => NegInf
  | Fin x, Fin y => Fin (x + y)
  end.

Definition sub (a b : number) : number := add a (neg b).

(** [infTimes negative q]: an infinity of the given sign times the finite [q]. *)
Definition infTimes (negative : bool) (q : Q) : number :=
  if zeroQ q then NaN else inf (xorb negative (negb (posQ q))).

Definition mul (a b : number) : number :=
  match a, b with
  | NaN, _ | _, NaN => NaN
  | PosInf, PosInf | NegInf, NegInf => PosInf
  | PosInf, NegInf | NegInf, PosInf => NegInf
  | PosInf, Fin y | Fin y, PosInf => infTimes false y
  | NegInf, Fin y | Fin y, NegInf => infTimes true y
  | Fin x, Fin y => Fin (x * y)
  end.

(** Division; a zero divisor is taken as [+0]. *)
Definition div (a b : number) : number :=
  match a, b with
  | NaN, _ | _, NaN => NaN
  | (PosInf | NegInf), (PosInf | NegInf) => NaN
  | Fin _, (PosInf | NegInf) => Fin 0
  | PosInf, Fin y => inf (negb (zeroQ y || posQ y))
  | NegInf, Fin y => inf (zeroQ y || posQ y)
  | Fin x, Fin y =>
      if zeroQ y
      then (if zeroQ x then NaN else inf (negb (posQ x)))
      else Fin (x / y)
  end.

(** [a <= b]; any comparison with [NaN] is false. *)
Definition leb (a b : number) : bool :=
  match a, b with
  | NaN, _ | _, NaN => false
  | NegInf, _ => true
  | _, PosInf => true
  | PosInf, _ => false
  | _, NegInf => false
  | Fin x, Fin y => Qle_bool x y
  end.

(** [a < b]. *)
Definition ltb (a b : number) : bool :=
  match a, b with
  | NaN, _ | _, NaN => false
  | NegInf, NegInf => false
  | NegInf, _ => true
  | PosInf, _ => false
  | _, PosInf => true
  | _, NegInf => false
  | Fin x, Fin y => negb (Qle_bool y x)
  end.

(** [a >= b] and [a > b] are the mirrored tests. *)
Definition geb (a b : number) : bool := leb b a.
Definition gtb (a b : number) : bool := ltb b a.

Definition Math_abs (a : number) : number :=
  match a with
  | NaN => NaN
  | NegInf | PosInf => PosInf
  | Fin q => Fin (Qabs q)
  end.

Definition signQ (q : Q) : Q :=
  if zeroQ q then 0 else if posQ q then 1 else -1.

Definition Math_sign (a : number) : number :=
  match a with
  | NaN => NaN
  | NegInf => Fin (-1)
  | PosInf => Fin 1
  | Fin q => Fin (signQ q)
  end.

(** [Math.max] and [Math.min] of two arguments: [NaN] is contagious. *)
Definition Math_max (a b : number) : number :=
  match a, b with
  | NaN, _ | _, NaN => NaN
  | _, _ => if leb a b then b else a
  end.

Definition Math_min (a b : number) : number :=
  match a, b with
  | NaN, _ | _, NaN => NaN
  | _, _ => if leb a b then a else b
  end.

(** Two numbers denote the same value. *)
Definition same (a b : number) : Prop :=
  match a, b with
  | NaN, NaN | NegInf, NegInf | PosInf, PosInf => True
  | Fin x, Fin y => x == y
  | _, _ => False
  end.

End JsNumber.

Export JsNumber.

Declare Scope js_scope.
Delimit Scope js_scope with js.
Bind Scope js_scope with number.
Notation "a + b" := (add a b) : js_scope.
Notation "a - b" := (sub a b) : js_scope.
Notation "a * b" := (mul a b) : js_scope.
Notation "a / b" := (div a b) : js_scope.
Notation "- a" := (neg a) : js_scope.
Notation "a <=? b" := (leb a b) (at level 70) : js_scope.
Notation "a <? b" := (ltb a b) (at level 70) : js_scope.
Notation "a >=? b" := (geb a b) (at level 70) : js_scope.
Notation "a ≈ b" := (same a b) (at level 70) : js_scope.

(** A numeric literal of the source. *)
Notation "# q" := (Fin q%Q) (at level 5, q at level 1, format "# q") : js_scope.

Open Scope string_scope.
Open Scope js_scope.

(** ** Parameters: [defaults], [normalizeParams] *)

(** What [readParams] returns: seven Numbers ([Number(field.value)], so [NaN]
    for unparsable text) and the selected style string. *)
Record Params : Type := mkParams {
  width : number;
  height : number;
  faceWidth : number;
  profileDepth : number;
  lipWidth : number;
  lipDepth : number;
  clearance : number;
  style : string;
}.

Definition defaults : Params :=
  {| width := #600;
     height := #400;
     faceWidth := #20;
     profileDepth := #14;
     lipWidth := #4;
     lipDepth := #4;
     clearance := #0.4;
     style := "minimal" |}.

(** The keys of [numericDefaults]. *)
Inductive NumericKey : Type :=
| Kwidth | Kheight | KfaceWidth | KprofileDepth | KlipWidth | KlipDepth | Kclearance.

(** [sane[key]] *)
Definition getKey (k : NumericKey) (p : Params) : number :=
  match k with
  | Kwidth => width p
  | Kheight => height p
  | KfaceWidth => faceWidth p
  | KprofileDepth => profileDepth p
  | KlipWidth => lipWidth p
  | KlipDepth => lipDepth p
  | Kclearance => clearance p
  end.

(** [sane[key] = v] *)
Definition setKey (k : NumericKey) (v : number) (p : Params) : Params :=
  match k with
  | Kwidth => mkParams v (height p) (faceWidth p) (profileDepth p) (lipWidth p) (lipDepth p) (clearance p) (style p)
  | Kheight => mkParams (width p) v (faceWidth p) (profileDepth p) (lipWidth p) (lipDepth p) (clearance p) (style p)
  | KfaceWidth => mkParams (width p) (height p) v (profileDepth p) (lipWidth p) (lipDepth p) (clearance p) (style p)
  | KprofileDepth => mkParams (width p) (height p) (faceWidth p) v (lipWidth p) (lipDepth p) (clearance p) (style p)
  | KlipWidth => mkParams (width p) (height p) (faceWidth p) (profileDepth p) v (lipDepth p) (clearance p) (style p)
  | KlipDepth => mkParams (width p) (height p) (faceWidth p) (profileDepth p) (lipWidth p) v (clearance p) (style p)
  | Kclearance => mkParams (width p) (height p) (faceWidth p) (profileDepth p) (lipWidth p) (lipDepth p) v (style p)
  end.

(** [Object.entries(numericDefaults)], in insertion order. *)
Definition numericDefaults : list (NumericKey * number) :=
  [ (Kwidth, width defaults);
    (Kheight, height defaults);
    (KfaceWidth, faceWidth defaults);
    (KprofileDepth, profileDepth defaults);
    (KlipWidth, lipWidth defaults);
    (KlipDepth, lipDepth defaults);
    (Kclearance, clearance defaults) ].

(** The body of the [for ... of] loop. *)
Definition applyFallback (sane : Params) (entry : NumericKey * number) : Params :=
  let (key, fallback) := entry in
  if negb (Number_isFinite (getKey key sane)) || (getKey key sane <=? #0)
  then setKey key fallback sane
  else sane.

Definition normalizeParams (params : Params) : Params :=
  let sane := params in
  let sane := fold_left applyFallback numericDefaults sane in
  let sane :=
    if lipWidth sane >=? faceWidth sane
    then setKey KlipWidth (Math_max #2 (faceWidth sane * #0.45)) sane
    else sane in
  let sane :=
    if lipDepth sane >=? profileDepth sane
    then setKey KlipDepth (Math_max #2 (profileDepth sane * #0.35)) sane
    else sane in
  sane.

(** What the loop leaves in a field: the value it held, or the fallback. *)
Definition orFallback (v fallback : number) : number :=
  if negb (Number_isFinite v) || (v <=? #0) then fallback else v.

(** [{ ...params, style }] *)
Definition withStyle (s : string) (p : Params) : Params :=
  mkParams (width p) (height p) (faceWidth p) (profileDepth p)
           (lipWidth p) (lipDepth p) (clearance p) s.

(** A finite, strictly positive number. *)
Definition finitePositive (a : number) : Prop :=
  exists q, a = Fin q /\ (0 < q)%Q.

(** The style values the selector offers. *)
Definition knownStyles : list string := ["minimal"; "bold"; "wood"].


(** ** Values, shapes and the host

    three.js and the browser are not part of the repository.  What the source
    relies on is modelled as follows: a [THREE.Shape] is the list of points
    its [moveTo]/[lineTo] calls visit; a [BufferGeometry] is its position
    attribute with the [parameters] object its constructor records; the
    triangulation is left to the host ([extrudeVertices]), as are [Math.PI],
    [Math.sin] and [Math.cos], which have no rational value. *)

Record Vector3 : Type := vec3 { vx : number; vy : number; vz : number }.

Definition Vector2 : Type := (number * number)%type.

(** The points of a path, in drawing order. *)
Definition Shape : Type := list Vector2.

Definition moveTo (x y : number) (shape : Shape) : Shape := (shape ++ [(x, y)])%list.
Definition lineTo (x y : number) (shape : Shape) : Shape := (shape ++ [(x, y)])%list.

(** The JavaScript values that reach a property read or a numeric operator. *)
#[local] Unset Elimination Schemes.
Inductive value : Type :=
| VUndefined
| VNumber (n : number)
| VBoolean (b : bool)
| VShape (s : Shape)
| VObject (props : list (string * value))
| VElement (id : string).
#[local] Set Elimination Schemes.

(** [obj.name]: an own property, or [undefined]. *)
Fixpoint lookupProp (name : string) (props : list (string * value)) : value :=
  match props with
  | [] => VUndefined
  | (k, v) :: rest => if String.eqb k name then v else lookupProp name rest
  end.

Definition getProp (obj : value) (name : string) : value :=
  match obj with
  | VObject props => lookupProp name props
  | _ => VUndefined
  end.

(** ToNumber: [undefined], and an object whose string form is not a numeric
    literal (a plain object, a shape, a DOM element), convert to [NaN]. *)
Definition ToNumber (v : value) : number :=
  match v with
  | VNumber n => n
  | VBoolean b => if b then #1 else #0
  | VUndefined | VShape _ | VObject _ | VElement _ => NaN
  end.

Class Host : Type := {
  Math_PI : number;
  Math_sin : number -> number;
  Math_cos : number -> number;
  (** The vertices [new THREE.ExtrudeGeometry(shape, options)] writes. *)
  extrudeVertices : Shape -> value -> list Vector3;
  (** What the [n]-th call of [Math.random()] would return: the entropy the
      host offers to any code that asks for it. *)
  Math_random : nat -> number;
}.

(** The global object of the realm the module runs in: what an identifier
    that no enclosing scope declares resolves to.  In a browser the elements
    of the document are properties of it under their [id]. *)
Definition GlobalObject : Type := string -> option value.

(** The [id]s the module looks up with [document.getElementById]. *)
Definition formIds : list string :=
  ["width"; "height"; "faceWidth"; "profileDepth"; "lipWidth"; "lipDepth";
   "clearance"; "style"; "summary"; "downloadZip"; "updatePreview";
   "resetDefaults"; "viewport"].

(** A window whose document holds the form: each element is reachable as a
    global of its [id]. *)
Definition browserWindow : GlobalObject :=
  fun name =>
    if existsb (String.eqb name) formIds then Some (VElement name) else None.

(** A realm whose global object has none of these names (the module loaded
    over a stubbed [document], for one). *)
Definition bareGlobal : GlobalObject := fun _ => None.

Record BufferGeometry : Type := mkGeometry {
  parameters : value;
  attributes_position : list Vector3;
}.

Record Material : Type := mkMaterial {
  color : N;
  roughness : number;
  metalness : number;
  transparent : bool;
  opacity : number;
}.

Record Mesh : Type := mkMesh {
  geometry : BufferGeometry;
  material : Material;
  position : Vector3;
  rotation : Vector3;
}.

Record Group : Type := mkGroup { children : list Mesh }.

(** The four numbers the summary line formats with [toFixed(1)]. *)
Record Summary : Type := mkSummary {
  innerWidth : number;
  innerHeight : number;
  outerWidth : number;
  outerHeight : number;
}.

(** The module-level state [buildFrame] touches: the [frameGroup] variable,
    the group of the scene it put there, and the summary text. *)
Record World : Type := mkWorld {
  frameGroup : option Group;
  sceneFrame : option Group;
  summary : option Summary;
}.

Definition initialWorld : World :=
  {| frameGroup := None; sceneFrame := None; summary := None |}.

(** ** Completions: a call returns or throws, and leaves a world behind *)

Inductive Error : Type :=
| ReferenceError (name : string).

Inductive Completion (A : Type) : Type :=
| Normal (a : A)
| Throw (e : Error).

Arguments Normal {A} a.
Arguments Throw {A} e.

Definition Js (A : Type) : Type := World -> Completion A * World.

Definition ret {A} (a : A) : Js A := fun w => (Normal a, w).

Definition bind {A B} (m : Js A) (k : A -> Js B) : Js B :=
  fun w =>
    match m w with
    | (Normal a, w') => k a w'
    | (Throw e, w') => (Throw e, w')
    end.

Definition throw {A} (e : Error) : Js A := fun w => (Throw e, w).

Definition getWorld : Js World := fun w => (Normal w, w).
Definition putWorld (w : World) : Js unit := fun _ => (Normal tt, w).

Notation "x <- m ;; k" := (bind m (fun x => k))
  (at level 61, m at next level, right associativity).
Notation "m ;;; k" := (bind m (fun _ => k))
  (at level 61, right associativity).

(** Reading an identifier that the function and the module do not declare. *)
Definition resolveGlobal (g : GlobalObject) (name : string) : Js value :=
  match g name with
  | Some v => ret v
  | None => throw (ReferenceError name)
  end.

(** ** Geometry operations of three.js used by the source *)

Section Geometry.

Context {host : Host}.

(** [new THREE.ExtrudeGeometry(shape, options)]: [parameters] holds one
    property per constructor argument, [shapes] and [options]. *)
Definition ExtrudeGeometry (shape : Shape) (options : value) : BufferGeometry :=
  {| parameters := VObject [("shapes", VShape shape); ("options", options)];
     attributes_position := extrudeVertices shape options |}.

Definition mapPosition (f : Vector3 -> Vector3) (g : BufferGeometry) : BufferGeometry :=
  {| parameters := parameters g;
     attributes_position := map f (attributes_position g) |}.

(** [geometry.translate(x, y, z)] *)
Definition translate (x y z : number) : BufferGeometry -> BufferGeometry :=
  mapPosition (fun v => vec3 (vx v + x) (vy v + y) (vz v + z)).

(** [geometry.rotateX(angle)]: the matrix of [makeRotationX]. *)
Definition rotateX (angle : number) : BufferGeometry -> BufferGeometry :=
  let c := Math_cos angle in
  let s := Math_sin angle in
  mapPosition (fun v => vec3 (vx v) (c * vy v - s * vz v) (s * vy v + c * vz v)).

(** [geometry.rotateY(angle)]: the matrix of [makeRotationY]. *)
Definition rotateY (angle : number) : BufferGeometry -> BufferGeometry :=
  let c := Math_cos angle in
  let s := Math_sin angle in
  mapPosition (fun v => vec3 (c * vx v + s * vz v) (vy v) (- s * vx v + c * vz v)).

Definition origin : Vector3 := vec3 #0 #0 #0.

(** [new THREE.MeshStandardMaterial({...})]: opaque unless told otherwise. *)
Definition MeshStandardMaterial (color : N) (roughness metalness : number) : Material :=
  {| color := color; roughness := roughness; metalness := metalness;
     transparent := false; opacity := #1 |}.

(** [new THREE.Mesh(geometry, material)] *)
Definition newMesh (geometry : BufferGeometry) (material : Material) : Mesh :=
  {| geometry := geometry; material := material;
     position := origin; rotation := origin |}.

(** [mesh.clone()]: a new mesh on the same geometry and material. *)
Definition clone (m : Mesh) : Mesh :=
  {| geometry := geometry m; material := material m;
     position := position m; rotation := rotation m |}.

Definition setPosition (p : Vector3) (m : Mesh) : Mesh :=
  {| geometry := geometry m; material := material m;
     position := p; rotation := rotation m |}.

Definition setPositionX (x : number) (m : Mesh) : Mesh :=
  setPosition (vec3 x (vy (position m)) (vz (position m))) m.

Definition setPositionY (y : number) (m : Mesh) : Mesh :=
  setPosition (vec3 (vx (position m)) y (vz (position m))) m.

Definition setRotationZ (z : number) (m : Mesh) : Mesh :=
  {| geometry := geometry m; material := material m;
     position := position m;
     rotation := vec3 (vx (rotation m)) (vy (rotation m)) z |}.

(** ** [src/unnamed/part_000] *)

Definition buildProfileShape (faceWidth profileDepth lipWidth lipDepth : number) : Shape :=
  let shape : Shape := [] in
  let shape := moveTo #0 #0 shape in
  let shape := lineTo faceWidth #0 shape in
  let shape := lineTo faceWidth profileDepth shape in
  let shape := lineTo (faceWidth - lipWidth) profileDepth shape in
  let shape := lineTo (faceWidth - lipWidth) lipDepth shape in
  let shape := lineTo #0 lipDepth shape in
  let shape := lineTo #0 #0 shape in
  shape.

(** One turn of the loop of [carveWoodgrain]. *)
Definition carveVertex (length intensity : number) (v : Vector3) : Vector3 :=
  let z := vz v in
  let x := vx v in
  let grainWave := Math_sin ((z / length) * Math_PI * #8 + x * #0.08) in
  let ripple := Math_cos ((z / length) * Math_PI * #3) * #0.6 in
  let bump := (grainWave + ripple) * intensity in
  vec3 (x + bump * #0.15) (vy v + bump * #0.35) z.

Definition carveWoodgrain (length : number) (geometry : BufferGeometry) : BufferGeometry :=
  let intensity := #0.55 in
  mapPosition (carveVertex length intensity) geometry.

(** One turn of the loop of [addMiterEnds]. *)
Definition miterVertex (length : number) (params : Params) (v : Vector3) : Vector3 :=
  let faceWidth := faceWidth params in
  let profileDepth := profileDepth params in
  let half := length / #2 in
  let taperSpan := Math_max faceWidth profileDepth * #1.1 in
  let z := vz v in
  let distanceFromEnd := half - Math_abs z in
  if (distanceFromEnd >=? taperSpan) || (distanceFromEnd <? #0) then v
  else
    let t := #1 - distanceFromEnd / taperSpan in
    let sign := Math_sign z in
    let skew := (faceWidth + profileDepth * #0.8) * t * sign in
    vec3 (vx v + skew) (vy v + skew * #0.55) z.

Definition addMiterEnds (length : number) (params : Params)
    (geometry : BufferGeometry) : BufferGeometry :=
  mapPosition (miterVertex length params) geometry.

(** The [orientation] branch shared by [createPiece] and [createLipOverlay]. *)
Definition orient (orientation : string) (geometry : BufferGeometry) : BufferGeometry :=
  if String.eqb orientation "horizontal" then rotateY (Math_PI / #2) geometry
  else if String.eqb orientation "vertical" then rotateX (- Math_PI / #2) geometry
  else geometry.

Definition createPiece (length : number) (orientation : string) (params : Params) : Mesh :=
  let faceWidth := faceWidth params in
  let profileDepth := profileDepth params in
  let lipWidth := lipWidth params in
  let lipDepth := lipDepth params in
  let style := style params in
  let shape := buildProfileShape faceWidth profileDepth lipWidth lipDepth in
  let bevel := String.eqb style "bold" in
  let extrudeSettings :=
    VObject [("depth", VNumber length);
             ("bevelEnabled", VBoolean bevel);
             ("bevelThickness", VNumber (if bevel then #1.2 else #0));
             ("bevelSize", VNumber (if bevel then #0.8 else #0));
             ("bevelSegments", VNumber #2)] in
  let geometry := ExtrudeGeometry shape extrudeSettings in
  let geometry := translate (- faceWidth / #2) (- profileDepth / #2) (- length / #2) geometry in
  let geometry := addMiterEnds length params geometry in
  let geometry := if String.eqb style "wood" then carveWoodgrain length geometry else geometry in
  let geometry := orient orientation geometry in
  let material :=
    MeshStandardMaterial
      (if String.eqb style "wood" then 0xae8a63%N
       else if String.eqb style "bold" then 0x7cc7ff%N else 0x9ad4ff%N)
      (if String.eqb style "wood" then #0.9 else #0.45)
      #0.05 in
  newMesh geometry material.

Definition createLipOverlay (length : number) (orientation : string) (params : Params) : Mesh :=
  let lipWidth := lipWidth params in
  let lipDepth := lipDepth params in
  let faceWidth := faceWidth params in
  let profileDepth := profileDepth params in
  let lipShape : Shape := [] in
  let lipShape := moveTo (- faceWidth / #2) (- profileDepth / #2) lipShape in
  let lipShape := lineTo (- faceWidth / #2 + lipWidth) (- profileDepth / #2) lipShape in
  let lipShape := lineTo (- faceWidth / #2 + lipWidth) (- profileDepth / #2 + lipDepth) lipShape in
  let lipShape := lineTo (- faceWidth / #2) (- profileDepth / #2 + lipDepth) lipShape in
  let lipShape := lineTo (- faceWidth / #2) (- profileDepth / #2) lipShape in
  let geometry :=
    ExtrudeGeometry lipShape
      (VObject [("depth", VNumber length); ("bevelEnabled", VBoolean false)]) in
  let geometry := orient orientation geometry in
  let geometry := translate #0 #0 (- length / #2) geometry in
  let material :=
    {| color := 0xffe0a3%N; roughness := #0.45; metalness := #0.05;
       transparent := true; opacity := #0.7 |} in
  newMesh geometry material.

Definition createCornerInsert (params : Params) : Mesh :=
  let faceWidth := faceWidth params in
  let profileDepth := profileDepth params in
  let lipDepth := lipDepth params in
  let clearance := clearance params in
  let insertThickness := Math_max #3 (profileDepth * #0.35) in
  let insertLeg := Math_max #24 (faceWidth * #1.4) in
  let taper := Math_max #6 (faceWidth * #0.4) in
  let shape : Shape := [] in
  let shape := moveTo #0 #0 shape in
  let shape := lineTo insertLeg #0 shape in
  let shape := lineTo insertLeg insertThickness shape in
  let shape := lineTo taper insertThickness shape in
  let shape := lineTo taper insertLeg shape in
  let shape := lineTo #0 insertLeg shape in
  let shape := lineTo #0 #0 shape in
  let geometry :=
    ExtrudeGeometry shape
      (VObject [("depth", VNumber (Math_max #6 (lipDepth * #1.1 + clearance)));
                ("bevelEnabled", VBoolean false)]) in
  let geometry :=
    translate (- insertLeg / #2) (- insertLeg / #2)
      (- ToNumber (getProp (parameters geometry) "depth") / #2) geometry in
  let material := MeshStandardMaterial 0x72f1b8%N #0.5 #0.05 in
  newMesh geometry material.

Definition setFrameGroup (group : option Group) : Js unit :=
  w <- getWorld ;;
  putWorld {| frameGroup := group; sceneFrame := sceneFrame w; summary := summary w |}.

Definition setSceneFrame (group : option Group) : Js unit :=
  w <- getWorld ;;
  putWorld {| frameGroup := frameGroup w; sceneFrame := group; summary := summary w |}.

Definition setSummary (text : Summary) : Js unit :=
  w <- getWorld ;;
  putWorld {| frameGroup := frameGroup w; sceneFrame := sceneFrame w; summary := Some text |}.

(** [buildFrame(params)], run in a realm with global object [g].  The
    function destructures [width], [height], [faceWidth], [lipWidth] and
    [clearance] only: the four reads of [lipDepth] (lines 262 to 267) are
    reads of a global.  [fitCameraToFrame] moves the camera and the orbit
    controls, which are renderer state outside [World]. *)
Definition buildFrame (g : GlobalObject) (params : Params) : Js unit :=
  let safeParams := normalizeParams params in
  w <- getWorld ;;
  (match frameGroup w with
   | Some _ => setSceneFrame None
   | None => ret tt
   end) ;;;
  setFrameGroup (Some (mkGroup [])) ;;;
  let width := width safeParams in
  let height := height safeParams in
  let faceWidth := faceWidth safeParams in
  let lipWidth := lipWidth safeParams in
  let clearance := clearance safeParams in
  let innerWidth := width + clearance * #2 in
  let innerHeight := height + clearance * #2 in
  let horizontalLength := innerWidth + lipWidth * #2 in
  let verticalLength := innerHeight + lipWidth * #2 in
  let offsetX := innerWidth / #2 in
  let offsetY := innerHeight / #2 in
  let top := createPiece horizontalLength "horizontal" safeParams in
  let top := setPositionY (offsetY + (faceWidth - lipWidth) / #2) top in
  let bottom := createPiece horizontalLength "horizontal" safeParams in
  let bottom := setPositionY (- (offsetY + (faceWidth - lipWidth) / #2)) bottom in
  let left := createPiece verticalLength "vertical" safeParams in
  let left := setPositionX (- (offsetX + (faceWidth - lipWidth) / #2)) left in
  let right := createPiece verticalLength "vertical" safeParams in
  let right := setPositionX (offsetX + (faceWidth - lipWidth) / #2) right in
  let lipTop := createLipOverlay horizontalLength "horizontal" safeParams in
  let lipTop := setPosition (position top) lipTop in
  let lipBottom := createLipOverlay horizontalLength "horizontal" safeParams in
  let lipBottom := setPosition (position bottom) lipBottom in
  let lipLeft := createLipOverlay verticalLength "vertical" safeParams in
  let lipLeft := setPosition (position left) lipLeft in
  let lipRight := createLipOverlay verticalLength "vertical" safeParams in
  let lipRight := setPosition (position right) lipRight in
  let insert := createCornerInsert safeParams in
  let insertOffset := Math_min innerWidth innerHeight * #0.25 in
  let inserts0 := clone insert in
  let inserts1 := clone insert in
  let inserts2 := clone insert in
  let inserts3 := clone insert in
  lipDepth <- resolveGlobal g "lipDepth" ;;
  let inserts0 :=
    setPosition (vec3 (offsetX - insertOffset) (offsetY - insertOffset)
                      (ToNumber lipDepth * #0.2)) inserts0 in
  lipDepth <- resolveGlobal g "lipDepth" ;;
  let inserts1 :=
    setPosition (vec3 (offsetX - insertOffset) (- (offsetY - insertOffset))
                      (ToNumber lipDepth * #0.2)) inserts1 in
  let inserts1 := setRotationZ (Math_PI / #2) inserts1 in
  lipDepth <- resolveGlobal g "lipDepth" ;;
  let inserts2 :=
    setPosition (vec3 (- (offsetX - insertOffset)) (offsetY - insertOffset)
                      (ToNumber lipDepth * #0.2)) inserts2 in
  let inserts2 := setRotationZ (- Math_PI / #2) inserts2 in
  lipDepth <- resolveGlobal g "lipDepth" ;;
  let inserts3 :=
    setPosition (vec3 (- (offsetX - insertOffset)) (- (offsetY - insertOffset))
                      (ToNumber lipDepth * #0.2)) inserts3 in
  let inserts3 := setRotationZ Math_PI inserts3 in
  let group :=
    mkGroup [top; bottom; left; right; lipTop; lipBottom; lipLeft; lipRight;
             inserts0; inserts1; inserts2; inserts3] in
  setFrameGroup (Some group) ;;;
  setSceneFrame (Some group) ;;;
  let outerWidth := innerWidth + faceWidth * #2 in
  let outerHeight := innerHeight + faceWidth * #2 in
  setSummary (mkSummary innerWidth innerHeight outerWidth outerHeight).

(** An entry of the [pieces] table of [downloadZip]. *)
Inductive PieceEntry : Type :=
| RailEntry (name : string) (length : number) (orientation : string)
| InsertEntry (name : string).

(** [downloadZip], up to the archive: the file names with the meshes handed
    to the exporter.  [raw] is what [readParams()] returned. *)
Definition downloadZip (raw : Params) : list (string * Mesh) :=
  let params := normalizeParams raw in
  let width := width params in
  let height := height params in
  let lipWidth := lipWidth params in
  let clearance := clearance params in
  let innerWidth := width + clearance * #2 in
  let innerHeight := height + clearance * #2 in
  let horizontalLength := innerWidth + lipWidth * #2 in
  let verticalLength := innerHeight + lipWidth * #2 in
  let pieces :=
    [ RailEntry "frame_top.stl" horizontalLength "horizontal";
      RailEntry "frame_bottom.stl" horizontalLength "horizontal";
      RailEntry "frame_left.stl" verticalLength "vertical";
      RailEntry "frame_right.stl" verticalLength "vertical";
      InsertEntry "corner_insert_A.stl";
      InsertEntry "corner_insert_B.stl" ] in
  map (fun piece =>
         match piece with
         | InsertEntry name =>
             let connector := createCornerInsert params in
             (name, connector)
         | RailEntry name length orientation =>
             let mesh := createPiece length orientation params in
             let mesh := setPosition origin mesh in
             (name, mesh)
         end) pieces.

End Geometry.

(** ** [src/js/app.js]: the functions that differ from [part_000] *)

Module AppJs.
Section Geometry.

Context {host : Host}.

(** One turn of the loop of [jitterWood]. *)
Definition jitterVertex (intensity : number) (v : Vector3) : Vector3 :=
  let x := vx v in
  let z := vz v in
  let noise := Math_sin (x * #0.18) * Math_cos (z * #0.12) * intensity in
  vec3 (x + noise * #0.6) (vy v) (z + noise).

Definition jitterWood (geometry : BufferGeometry) : BufferGeometry :=
  let intensity := #0.35 in
  mapPosition (jitterVertex intensity) geometry.

Definition createPiece (length : number) (orientation : string) (params : Params) : Mesh :=
  let faceWidth := faceWidth params in
  let profileDepth := profileDepth params in
  let lipWidth := lipWidth params in
  let lipDepth := lipDepth params in
  let style := style params in
  let shape := buildProfileShape faceWidth profileDepth lipWidth lipDepth in
  let bevel := String.eqb style "bold" in
  let extrudeSettings :=
    VObject [("depth", VNumber length);
             ("bevelEnabled", VBoolean bevel);
             ("bevelThickness", VNumber (if bevel then #1.2 else #0));
             ("bevelSize", VNumber (if bevel then #0.8 else #0));
             ("bevelSegments", VNumber #2)] in
  let geometry := ExtrudeGeometry shape extrudeSettings in
  let geometry := translate (- faceWidth / #2) (- profileDepth / #2) (- length / #2) geometry in
  let geometry := if String.eqb style "wood" then jitterWood geometry else geometry in
  let geometry := orient orientation geometry in
  let material :=
    MeshStandardMaterial
      (if String.eqb style "wood" then 0xb18f6a%N
       else if String.eqb style "bold" then 0x7cc7ff%N else 0x9ad4ff%N)
      (if String.eqb style "wood" then #0.8 else #0.45)
      #0.05 in
  newMesh geometry material.

(** The overlay of [src/js/app.js]: the geometry of [part_000], an opaque
    orange material. *)
Definition createLipOverlay (length : number) (orientation : string) (params : Params) : Mesh :=
  let lipWidth := lipWidth params in
  let lipDepth := lipDepth params in
  let faceWidth := faceWidth params in
  let profileDepth := profileDepth params in
  let lipShape : Shape := [] in
  let lipShape := moveTo (- faceWidth / #2) (- profileDepth / #2) lipShape in
  let lipShape := lineTo (- faceWidth / #2 + lipWidth) (- profileDepth / #2) lipShape in
  let lipShape := lineTo (- faceWidth / #2 + lipWidth) (- profileDepth / #2 + lipDepth) lipShape in
  let lipShape := lineTo (- faceWidth / #2) (- profileDepth / #2 + lipDepth) lipShape in
  let lipShape := lineTo (- faceWidth / #2) (- profileDepth / #2) lipShape in
  let geometry :=
    ExtrudeGeometry lipShape
      (VObject [("depth", VNumber length); ("bevelEnabled", VBoolean false)]) in
  let geometry := orient orientation geometry in
  let geometry := translate #0 #0 (- length / #2) geometry in
  let material := MeshStandardMaterial 0xffb347%N #0.3 #0.05 in
  newMesh geometry material.

(** [buildFrame] of [src/js/app.js]: rails and overlays, no inserts, and no
    identifier left to the global object. *)
Definition buildFrame (params : Params) : Js unit :=
  let safeParams := normalizeParams params in
  w <- getWorld ;;
  (match frameGroup w with
   | Some _ => setSceneFrame None
   | None => ret tt
   end) ;;;
  setFrameGroup (Some (mkGroup [])) ;;;
  let width := width safeParams in
  let height := height safeParams in
  let faceWidth := faceWidth safeParams in
  let lipWidth := lipWidth safeParams in
  let clearance := clearance safeParams in
  let innerWidth := width + clearance * #2 in
  let innerHeight := height + clearance * #2 in
  let horizontalLength := innerWidth + lipWidth * #2 in
  let verticalLength := innerHeight + lipWidth * #2 in
  let offsetX := innerWidth / #2 in
  let offsetY := innerHeight / #2 in
  let top := createPiece horizontalLength "horizontal" safeParams in
  let top := setPositionY (offsetY + (faceWidth - lipWidth) / #2) top in
  let bottom := createPiece horizontalLength "horizontal" safeParams in
  let bottom := setPositionY (- (offsetY + (faceWidth - lipWidth) / #2)) bottom in
  let left := createPiece verticalLength "vertical" safeParams in
  let left := setPositionX (- (offsetX + (faceWidth - lipWidth) / #2)) left in
  let right := createPiece verticalLength "vertical" safeParams in
  let right := setPositionX (offsetX + (faceWidth - lipWidth) / #2) right in
  let lipTop := createLipOverlay horizontalLength "horizontal" safeParams in
  let lipTop := setPosition (position top) lipTop in
  let lipBottom := createLipOverlay horizontalLength "horizontal" safeParams in
  let lipBottom := setPosition (position bottom) lipBottom in
  let lipLeft := createLipOverlay verticalLength "vertical" safeParams in
  let lipLeft := setPosition (position left) lipLeft in
  let lipRight := createLipOverlay verticalLength "vertical" safeParams in
  let lipRight := setPosition (position right) lipRight in
  let group :=
    mkGroup [top; bottom; left; right; lipTop; lipBottom; lipLeft; lipRight] in
  setFrameGroup (Some group) ;;;
  setSceneFrame (Some group) ;;;
  let outerWidth := innerWidth + faceWidth * #2 in
  let outerHeight := innerHeight + faceWidth * #2 in
  setSummary (mkSummary innerWidth innerHeight outerWidth outerHeight).

(** [downloadZip] of [src/js/app.js], up to the archive: four rails. *)
Definition downloadZip (raw : Params) : list (string * Mesh) :=
  let params := normalizeParams raw in
  let width := width params in
  let height := height params in
  let lipWidth := lipWidth params in
  let clearance := clearance params in
  let innerWidth := width + clearance * #2 in
  let innerHeight := height + clearance * #2 in
  let horizontalLength := innerWidth + lipWidth * #2 in
  let verticalLength := innerHeight + lipWidth * #2 in
  let pieces :=
    [ ("frame_top.stl", horizontalLength, "horizontal");
      ("frame_bottom.stl", horizontalLength, "horizontal");
      ("frame_left.stl", verticalLength, "vertical");
      ("frame_right.stl", verticalLength, "vertical") ] in
  map (fun piece =>
         match piece with
         | (name, length, orientation) =>
             let mesh := createPiece length orientation params in
             let mesh := setPosition origin mesh in
             (name, mesh)
         end) pieces.

End Geometry.
End AppJs.

(** ** A small host for closed examples

    Extrusion lists the two end caps of the prism (the places three.js puts
    vertices at when bevels are off).  [Math.sin] and [Math.cos] are sign
    tables, exact at the quarter turns of [orient]; the examples that reach
    the woodgrain use them only as functions with values in [-1, 1]. *)

Definition optionDepth (options : value) : number :=
  ToNumber (getProp options "depth").

Definition prismVertices (shape : Shape) (options : value) : list Vector3 :=
  (map (fun p => vec3 (fst p) (snd p) #0) shape
   ++ map (fun p => vec3 (fst p) (snd p) (optionDepth options)) shape)%list.

#[local] Instance prismHost : Host :=
  {| Math_PI := #3.14159;
     Math_sin := fun a => if a <? #0 then #(-1) else if #0 <? a then #1 else #0;
     Math_cos := fun a => if (a <? #0) || (#0 <? a) then #0 else #1;
     extrudeVertices := prismVertices;
     Math_random := fun _ => #0.5 |}.

(** The same host with another random sequence. *)
Definition reseededHost : Host :=
  {| Math_PI := @Math_PI prismHost;
     Math_sin := @Math_sin prismHost;
     Math_cos := @Math_cos prismHost;
     extrudeVertices := @extrudeVertices prismHost;
     Math_random := fun n => if Nat.even n then #0.25 else #0.75 |}.

(** ** Vocabulary of the statements *)

(** [path] is the closed ring on [vertices]: it visits them in order and
    returns to the first. *)
Definition closedRing (vertices : list Vector2) (path : Shape) : Prop :=
  exists first rest, vertices = first :: rest /\ path = (vertices ++ [first])%list.

(** [mesh.geometry.parameters.shapes] and [...options.depth] *)
Definition extrudedShape (m : Mesh) : value :=
  getProp (parameters (geometry m)) "shapes".

Definition extrusionDepth (m : Mesh) : value :=
  getProp (getProp (parameters (geometry m)) "options") "depth".

Definition vertices (m : Mesh) : list Vector3 :=
  attributes_position (geometry m).

Definition finiteVertex (v : Vector3) : bool :=
  Number_isFinite (vx v) && Number_isFinite (vy v) && Number_isFinite (vz v).

(** Two hosts that offer the same geometry and trigonometry; their random
    sequences are free to differ. *)
Definition sameFacilities (h1 h2 : Host) : Prop :=
  @Math_PI h1 = @Math_PI h2 /\
  @Math_sin h1 = @Math_sin h2 /\
  @Math_cos h1 = @Math_cos h2 /\
  @extrudeVertices h1 = @extrudeVertices h2.

(** A bound on the dimensions, in millimetres, far inside the range of
    binary64: a thousand kilometres. *)
Definition dimensionBound : number := #1000000000.

Definition withinBound (a : number) : Prop := (a <=? dimensionBound) = true.

(** Two vertices at the same place. *)
Definition sameVertex (u v : Vector3) : Prop :=
  vx u ≈ vx v /\ vy u ≈ vy v /\ vz u ≈ vz v.

(** The end taper as the spec words it: the span of the taper zone, the
    distance of an axial coordinate [z] from the nearer end of a piece of the
    given length, the zone itself, and the skew at [z]. *)
Definition taperSpan (p : Params) : number :=
  #1.1 * Math_max (faceWidth p) (profileDepth p).

Definition distanceFromEnd (length z : number) : number :=
  length / #2 - Math_abs z.

Definition inTaperZone (length : number) (p : Params) (z : number) : bool :=
  (#0 <=? distanceFromEnd length z) && (distanceFromEnd length z <? taperSpan p).

Definition taperSkew (length : number) (p : Params) (z : number) : number :=
  (faceWidth p + #0.8 * profileDepth p)
  * (#1 - distanceFromEnd length z / taperSpan p)
  * Math_sign z.

(** The meshes of the frame group a call left in the world. *)
Definition framePieces (w : World) : list Mesh :=
  match frameGroup w with
  | Some group => children group
  | None => []
  end.

(** The skew of a finite vertex, as a rational. *)
Definition skewQ (L F P m z : Q) : Q :=
  ((F + 0.8 * P) * (1 - (L / 2 + - Qabs z) / (m * 1.1)) * signQ z)%Q.

(** The length of the top rail of the default frame. *)
Definition topLength : number := #608.8.

Section Composition.

Context {host : Host}.

(** The twelve meshes [buildFrame] composes once [lipDepth] has resolved to
    [v], in the order of [frameGroup.add]. *)
Definition composedPieces (v : value) (p : Params) : list Mesh :=
  let innerWidth := width p + clearance p * #2 in
  let innerHeight := height p + clearance p * #2 in
  let horizontalLength := innerWidth + lipWidth p * #2 in
  let verticalLength := innerHeight + lipWidth p * #2 in
  let offsetX := innerWidth / #2 in
  let offsetY := innerHeight / #2 in
  let railY := offsetY + (faceWidth p - lipWidth p) / #2 in
  let railX := offsetX + (faceWidth p - lipWidth p) / #2 in
  let insertOffset := Math_min innerWidth innerHeight * #0.25 in
  let cornerX := offsetX - insertOffset in
  let cornerY := offsetY - insertOffset in
  let cornerZ := ToNumber v * #0.2 in
  let rail := createPiece in
  let lip := createLipOverlay in
  let insert := createCornerInsert p in
  [ setPosition (vec3 #0 railY #0) (rail horizontalLength "horizontal" p);
    setPosition (vec3 #0 (- railY) #0) (rail horizontalLength "horizontal" p);
    setPosition (vec3 (- railX) #0 #0) (rail verticalLength "vertical" p);
    setPosition (vec3 railX #0 #0) (rail verticalLength "vertical" p);
    setPosition (vec3 #0 railY #0) (lip horizontalLength "horizontal" p);
    setPosition (vec3 #0 (- railY) #0) (lip horizontalLength "horizontal" p);
    setPosition (vec3 (- railX) #0 #0) (lip verticalLength "vertical" p);
    setPosition (vec3 railX #0 #0) (lip verticalLength "vertical" p);
    setPosition (vec3 cornerX cornerY cornerZ) insert;
    setRotationZ (Math_PI / #2)
      (setPosition (vec3 cornerX (- cornerY) cornerZ) insert);
    setRotationZ (- Math_PI / #2)
      (setPosition (vec3 (- cornerX) cornerY cornerZ) insert);
    setRotationZ Math_PI
      (setPosition (vec3 (- cornerX) (- cornerY) cornerZ) insert) ].

Definition composedSummary (p : Params) : Summary :=
  let innerWidth := width p + clearance p * #2 in
  let innerHeight := height p + clearance p * #2 in
  mkSummary innerWidth innerHeight
            (innerWidth + faceWidth p * #2) (innerHeight + faceWidth p * #2).

End Composition.

Section CompositionOfAppJs.

Context {host : Host}.

(** The eight meshes [buildFrame] of [src/js/app.js] composes. *)
Definition appJsPieces (p : Params) : list Mesh :=
  let innerWidth := width p + clearance p * #2 in
  let innerHeight := height p + clearance p * #2 in
  let horizontalLength := innerWidth + lipWidth p * #2 in
  let verticalLength := innerHeight + lipWidth p * #2 in
  let offsetX := innerWidth / #2 in
  let offsetY := innerHeight / #2 in
  let railY := offsetY + (faceWidth p - lipWidth p) / #2 in
  let railX := offsetX + (faceWidth p - lipWidth p) / #2 in
  let rail := AppJs.createPiece in
  let lip := AppJs.createLipOverlay in
  [ setPosition (vec3 #0 railY #0) (rail horizontalLength "horizontal" p);
    setPosition (vec3 #0 (- railY) #0) (rail horizontalLength "horizontal" p);
    setPosition (vec3 (- railX) #0 #0) (rail verticalLength "vertical" p);
    setPosition (vec3 railX #0 #0) (rail verticalLength "vertical" p);
    setPosition (vec3 #0 railY #0) (lip horizontalLength "horizontal" p);
    setPosition (vec3 #0 (- railY) #0) (lip horizontalLength "horizontal" p);
    setPosition (vec3 (- railX) #0 #0) (lip verticalLength "vertical" p);
    setPosition (vec3 railX #0 #0) (lip verticalLength "vertical" p) ].

End CompositionOfAppJs.

(** ** A session: one [buildFrame] per event

    The listeners of [attachListeners] call [buildFrame(readParams())]; an
    exception thrown by a listener ends that call only, so the next event
    finds the world the throw left behind. *)

Section Session.

Context {host : Host}.

Fixpoint runBuilds (g : GlobalObject) (inputs : list Params) (w : World) : World :=
  match inputs with
  | [] => w
  | params :: rest => runBuilds g rest (snd (buildFrame g params w))
  end.

End Session.

(** ** [debounce]

    The closure [debounce(fn, wait)] returns keeps one variable, [t], the id
    of the last timeout it set.  The host keeps the pending timeouts; time is
    counted in milliseconds.  A timeout fires once its delay has passed, and
    firing calls [fn] with the arguments of the call that set it. *)

Module Debounce.
Section Debounce.

(** The arguments of a call, and the [wait] of this closure. *)
Variable Args : Type.
Variable wait : nat.

Record Timer : Type := mkTimer {
  timerId : nat;
  due : nat;
  payload : Args;
}.

Record State : Type := mkState {
  now : nat;
  timers : list Timer;
  nextId : nat;
  t : option nat;
  fnCalls : list Args;
}.

Definition start : State :=
  {| now := 0; timers := []; nextId := 1; t := None; fnCalls := [] |}.

(** [clearTimeout(t)]: drops the timeout of that id, if it is still pending;
    [clearTimeout(undefined)] does nothing. *)
Definition clearTimeout (id : option nat) (s : State) : State :=
  match id with
  | None => s
  | Some i =>
      {| now := now s;
         timers := filter (fun tm => negb (Nat.eqb (timerId tm) i)) (timers s);
         nextId := nextId s; t := t s; fnCalls := fnCalls s |}
  end.

(** [setTimeout(() => fn(...args), wait)]: a fresh id, due [wait] from now. *)
Definition setTimeout (args : Args) (s : State) : nat * State :=
  (nextId s,
   {| now := now s;
      timers := (timers s ++ [mkTimer (nextId s) (now s + wait)%nat args])%list;
      nextId := S (nextId s); t := t s; fnCalls := fnCalls s |}).

(** The function [debounce] returns, called with [args]. *)
Definition debounced (args : Args) (s : State) : State :=
  let s := clearTimeout (t s) s in
  let (id, s) := setTimeout args s in
  {| now := now s; timers := timers s; nextId := nextId s;
     t := Some id; fnCalls := fnCalls s |}.

(** [ms] milliseconds pass: the timeouts that have come due fire, in the
    order they were set. *)
Definition elapse (ms : nat) (s : State) : State :=
  let time := (now s + ms)%nat in
  let fired := filter (fun tm => Nat.leb (due tm) time) (timers s) in
  {| now := time;
     timers := filter (fun tm => negb (Nat.leb (due tm) time)) (timers s);
     nextId := nextId s; t := t s;
     fnCalls := (fnCalls s ++ map payload fired)%list |}.

Inductive Event : Type :=
| Call (args : Args)
| Elapse (ms : nat).

Definition step (s : State) (e : Event) : State :=
  match e with
  | Call args => debounced args s
  | Elapse ms => elapse ms s
  end.

Definition run (events : list Event) (s : State) : State :=
  fold_left step events s.

(** A burst: calls less than [wait] apart, each given with the pause before it. *)
Definition burst (calls : list (nat * Args)) : list Event :=
  flat_map (fun c => [Elapse (fst c); Call (snd c)]) calls.

(** The pending timeouts are at most the one [t] names. *)
Definition pendingIsCurrent (s : State) : Prop :=
  timers s = [] \/ exists tm, timers s = [tm] /\ t s = Some (timerId tm).

(** How often the debounced function is called in a trace. *)
Definition countCalls (events : list Event) : nat :=
  List.length (filter (fun e => match e with Call _ => true | Elapse _ => false end) events).

End Debounce.
End Debounce.

(** The keys the lip repairs never write. *)
Definition plainKey (k : NumericKey) : bool :=
  match k with
  | KlipWidth | KlipDepth => false
  | _ => true
  end.

(** A host function that maps finite numbers into [[-1, 1]]. *)
Definition intoUnitInterval (f : number -> number) : Prop :=
  forall q, exists s, f (Fin q) = Fin s /\ (-1 <= s)%Q /\ (s <= 1)%Q.

(** A world that shows nothing: no frame in the scene, no piece in the
    frame group, no summary. *)
Definition showsNothing (w : World) : Prop :=
  sceneFrame w = None /\ framePieces w = [] /\ summary w = None.

Section Extrusions.

Context {host : Host}.

(** The vertex buffer the constructor wrote for the shape and options a mesh
    records. *)
Definition extrusionOf (m : Mesh) : list Vector3 :=
  match extrudedShape m with
  | VShape shape => extrudeVertices shape (getProp (parameters (geometry m)) "options")
  | _ => []
  end.

End Extrusions.

(** * Properties *)

(** ** Numbers *)

Section NumberFacts.

Lemma leb_Fin (x y : Q) : (Fin x <=? Fin y) = true <-> (x <= y)%Q.
Proof. apply Qle_bool_iff. Qed.

Lemma leb_Fin_false (x y : Q) : (Fin x <=? Fin y) = false <-> (y < x)%Q.
Proof.
  simpl. split; intro H.
  - apply Qnot_le_lt. intro Hle. apply Qle_bool_iff in Hle. congruence.
  - destruct (Qle_bool x y) eqn:E; [|reflexivity].
    apply Qle_bool_iff in E. exfalso. apply (Qlt_not_le _ _ H E).
Qed.

Lemma ltb_Fin (x y : Q) : (Fin x <? Fin y) = true <-> (x < y)%Q.
Proof.
  simpl. rewrite negb_true_iff. apply leb_Fin_false.
Qed.

Lemma ltb_Fin_false (x y : Q) : (Fin x <? Fin y) = false <-> (y <= x)%Q.
Proof.
  simpl. rewrite negb_false_iff. apply Qle_bool_iff.
Qed.

Lemma geb_Fin (x y : Q) : (Fin x >=? Fin y) = true <-> (y <= x)%Q.
Proof. apply Qle_bool_iff. Qed.

Lemma geb_Fin_false (x y : Q) : (Fin x >=? Fin y) = false <-> (x < y)%Q.
Proof. unfold geb. apply leb_Fin_false. Qed.

Lemma zeroQ_true (q : Q) : zeroQ q = true <-> (q == 0)%Q.
Proof. apply Qeq_bool_iff. Qed.

Lemma zeroQ_false (q : Q) : zeroQ q = false <-> ~ (q == 0)%Q.
Proof.
  unfold zeroQ. split; intro H.
  - intro E. apply Qeq_bool_iff in E. congruence.
  - destruct (Qeq_bool q 0) eqn:E; [|reflexivity].
    apply Qeq_bool_iff in E. contradiction.
Qed.

Lemma posQ_true (q : Q) : posQ q = true <-> (0 < q)%Q.
Proof. apply (ltb_Fin 0 q). Qed.

Lemma posQ_false (q : Q) : posQ q = false <-> (q <= 0)%Q.
Proof. apply (ltb_Fin_false 0 q). Qed.

(** Multiplication of Numbers commutes, on the nose. *)
Lemma mul_comm (a b : number) : a * b = b * a.
Proof.
  destruct a as [| | |[xn xd]], b as [| | |[yn yd]]; try reflexivity.
  simpl. unfold Qmult. simpl.
  rewrite Z.mul_comm, Pos.mul_comm. reflexivity.
Qed.

Lemma add_NaN_r (a : number) : a + NaN = NaN.
Proof. destruct a; reflexivity. Qed.

(** [Math.max] of two finite numbers is one of them, and at least both. *)
Lemma Math_max_Fin (x y : Q) :
  exists m, Math_max (Fin x) (Fin y) = Fin m /\ (x <= m)%Q /\ (y <= m)%Q
            /\ (m = x \/ m = y).
Proof.
  unfold Math_max. destruct (Fin x <=? Fin y) eqn:E.
  - apply leb_Fin in E. exists y. repeat split; auto. apply Qle_refl.
  - apply leb_Fin_false in E. exists x. repeat split; auto.
    + apply Qle_refl.
    + apply Qlt_le_weak, E.
Qed.

End NumberFacts.

(** ** [normalizeParams] *)

Section Normalize.

(** The loop over [numericDefaults], field by field. *)
Lemma fallback_loop (p : Params) :
  fold_left applyFallback numericDefaults p =
  {| width := orFallback (width p) #600;
     height := orFallback (height p) #400;
     faceWidth := orFallback (faceWidth p) #20;
     profileDepth := orFallback (profileDepth p) #14;
     lipWidth := orFallback (lipWidth p) #4;
     lipDepth := orFallback (lipDepth p) #4;
     clearance := orFallback (clearance p) #0.4;
     style := style p |}.
Proof.
  destruct p as [w h fw pd lw ld c s].
  unfold numericDefaults, orFallback. cbn [fold_left defaults width height
    faceWidth profileDepth lipWidth lipDepth clearance style].
  unfold applyFallback at 7. cbn [getKey setKey width height
    faceWidth profileDepth lipWidth lipDepth clearance style].
  destruct (negb (Number_isFinite w) || (w <=? #0));
  unfold applyFallback at 6; cbn [getKey setKey width height
    faceWidth profileDepth lipWidth lipDepth clearance style];
  destruct (negb (Number_isFinite h) || (h <=? #0));
  unfold applyFallback at 5; cbn [getKey setKey width height
    faceWidth profileDepth lipWidth lipDepth clearance style];
  destruct (negb (Number_isFinite fw) || (fw <=? #0));
  unfold applyFallback at 4; cbn [getKey setKey width height
    faceWidth profileDepth lipWidth lipDepth clearance style];
  destruct (negb (Number_isFinite pd) || (pd <=? #0));
  unfold applyFallback at 3; cbn [getKey setKey width height
    faceWidth profileDepth lipWidth lipDepth clearance style];
  destruct (negb (Number_isFinite lw) || (lw <=? #0));
  unfold applyFallback at 2; cbn [getKey setKey width height
    faceWidth profileDepth lipWidth lipDepth clearance style];
  destruct (negb (Number_isFinite ld) || (ld <=? #0));
  unfold applyFallback; cbn [getKey setKey width height
    faceWidth profileDepth lipWidth lipDepth clearance style];
  destruct (negb (Number_isFinite c) || (c <=? #0)); reflexivity.
Qed.

Lemma orFallback_keep (v fallback : number) (q : Q) :
  v = Fin q -> (0 < q)%Q -> orFallback v fallback = v.
Proof.
  intros -> Hq. unfold orFallback. cbn [Number_isFinite negb orb].
  apply leb_Fin_false in Hq. rewrite Hq. reflexivity.
Qed.

Lemma orFallback_replace (v fallback : number) :
  (forall q, v = Fin q -> (q <= 0)%Q) -> orFallback v fallback = fallback.
Proof.
  intros H. unfold orFallback. destruct v as [| | |q]; try reflexivity.
  cbn [Number_isFinite negb orb].
  assert (Hq : (q <= 0)%Q) by (apply H; reflexivity).
  apply leb_Fin in Hq. rewrite Hq. reflexivity.
Qed.

Lemma orFallback_finitePositive (v fallback : number) :
  finitePositive fallback -> finitePositive (orFallback v fallback).
Proof.
  intros Hfb. unfold orFallback.
  destruct v as [| | |q]; cbn [Number_isFinite negb orb]; auto.
  destruct (Fin q <=? #0) eqn:E; auto.
  apply leb_Fin_false in E. exists q. auto.
Qed.

Lemma finitePositive_literal (q : Q) : (0 < q)%Q -> finitePositive (Fin q).
Proof. intros H. exists q. auto. Qed.

(** The repaired lip: [Math.max(2, side * factor)] is finite and at least 2. *)
Lemma repaired_lip (side : number) (factor : Q) :
  finitePositive side ->
  exists m, Math_max #2 (side * Fin factor) = Fin m /\ (2 <= m)%Q.
Proof.
  intros (q & -> & _). cbn [mul].
  destruct (Math_max_Fin 2 (q * factor)) as (m & Hm & H2 & _).
  exists m. auto.
Qed.

(** [normalizeParams] with the loop unrolled. *)
Lemma normalizeParams_unfold (p : Params) :
  normalizeParams p =
  let sane := fold_left applyFallback numericDefaults p in
  let sane :=
    if lipWidth sane >=? faceWidth sane
    then setKey KlipWidth (Math_max #2 (faceWidth sane * #0.45)) sane
    else sane in
  if lipDepth sane >=? profileDepth sane
  then setKey KlipDepth (Math_max #2 (profileDepth sane * #0.35)) sane
  else sane.
Proof. reflexivity. Qed.

Ltac split_lip_repairs :=
  rewrite normalizeParams_unfold, fallback_loop;
  cbn zeta; cbn [lipWidth faceWidth];
  destruct (orFallback (lipWidth _) _ >=? orFallback (faceWidth _) _) eqn:Hwidth;
  cbn [setKey width height faceWidth profileDepth lipWidth lipDepth clearance style];
  destruct (orFallback (lipDepth _) _ >=? orFallback (profileDepth _) _) eqn:Hdepth;
  cbn [setKey width height faceWidth profileDepth lipWidth lipDepth clearance style].

(** The fields the lip repairs never touch. *)
Lemma normalize_untouched (p : Params) :
  width (normalizeParams p) = orFallback (width p) #600 /\
  height (normalizeParams p) = orFallback (height p) #400 /\
  faceWidth (normalizeParams p) = orFallback (faceWidth p) #20 /\
  profileDepth (normalizeParams p) = orFallback (profileDepth p) #14 /\
  clearance (normalizeParams p) = orFallback (clearance p) #0.4 /\
  style (normalizeParams p) = style p.
Proof. split_lip_repairs; repeat split. Qed.

(** After normalization every numeric field is finite and positive. *)
Lemma normalize_finitePositive (p : Params) (k : NumericKey) :
  finitePositive (getKey k (normalizeParams p)).
Proof.
  assert (Hfw : finitePositive (orFallback (faceWidth p) #20))
    by (apply orFallback_finitePositive, finitePositive_literal; reflexivity).
  assert (Hpd : finitePositive (orFallback (profileDepth p) #14))
    by (apply orFallback_finitePositive, finitePositive_literal; reflexivity).
  destruct (repaired_lip 0.45 Hfw) as (mw & Hmw & H2w).
  destruct (repaired_lip 0.35 Hpd) as (md & Hmd & H2d).
  assert (Hlw : finitePositive (Fin mw))
    by (apply finitePositive_literal; eapply Qlt_le_trans; [|exact H2w]; reflexivity).
  assert (Hld : finitePositive (Fin md))
    by (apply finitePositive_literal; eapply Qlt_le_trans; [|exact H2d]; reflexivity).
  split_lip_repairs; destruct k;
    cbn [getKey width height faceWidth profileDepth lipWidth lipDepth clearance];
    rewrite ?Hmw, ?Hmd; auto;
    apply orFallback_finitePositive, finitePositive_literal; reflexivity.
Qed.

(** On parameters that are already consistent, [normalizeParams] changes nothing. *)
Lemma normalize_fixes_consistent (p : Params) :
  (forall k, finitePositive (getKey k p)) ->
  (lipWidth p <? faceWidth p) = true ->
  (lipDepth p <? profileDepth p) = true ->
  normalizeParams p = p.
Proof.
  intros Hpos Hw Hd.
  assert (Hloop : fold_left applyFallback numericDefaults p = p).
  { rewrite fallback_loop.
    destruct (Hpos Kwidth) as (q1 & E1 & P1), (Hpos Kheight) as (q2 & E2 & P2),
      (Hpos KfaceWidth) as (q3 & E3 & P3), (Hpos KprofileDepth) as (q4 & E4 & P4),
      (Hpos KlipWidth) as (q5 & E5 & P5), (Hpos KlipDepth) as (q6 & E6 & P6),
      (Hpos Kclearance) as (q7 & E7 & P7).
    cbn [getKey] in *.
    rewrite (orFallback_keep _ E1 P1), (orFallback_keep _ E2 P2),
      (orFallback_keep _ E3 P3), (orFallback_keep _ E4 P4),
      (orFallback_keep _ E5 P5), (orFallback_keep _ E6 P6),
      (orFallback_keep _ E7 P7).
    destruct p; reflexivity. }
  rewrite normalizeParams_unfold, Hloop. cbn zeta.
  destruct (Hpos KfaceWidth) as (fw & Efw & _), (Hpos KlipWidth) as (lw & Elw & _),
    (Hpos KprofileDepth) as (pd & Epd & _), (Hpos KlipDepth) as (ld & Eld & _).
  cbn [getKey] in *.
  rewrite Elw, Efw in Hw. apply ltb_Fin, geb_Fin_false in Hw.
  rewrite Eld, Epd in Hd. apply ltb_Fin, geb_Fin_false in Hd.
  rewrite <- Elw, <- Efw in Hw. rewrite Hw.
  rewrite <- Eld, <- Epd in Hd. rewrite Hd.
  reflexivity.
Qed.

(** A rail wider than the 2 mm floor of the repair does get its lip inside. *)
Lemma lip_inside_rail_wider_than_floor (p : Params) :
  (#2 <? faceWidth (normalizeParams p)) = true ->
  (#0 <? lipWidth (normalizeParams p)) = true /\
  (lipWidth (normalizeParams p) <? faceWidth (normalizeParams p)) = true.
Proof.
  destruct (normalize_finitePositive p KlipWidth) as (lw & Elw & Plw).
  destruct (normalize_finitePositive p KfaceWidth) as (fw & Efw & Pfw).
  cbn [getKey] in Elw, Efw. rewrite Elw, Efw. intros H2.
  apply ltb_Fin in H2. split; [apply ltb_Fin; exact Plw|].
  apply ltb_Fin.
  revert Elw Efw. split_lip_repairs; intros Elw Efw.
  - rewrite Efw in Elw. cbn [mul] in Elw.
    destruct (Math_max_Fin 2 (fw * 0.45)) as (m & Hm & _ & _ & [-> | ->]);
      rewrite Hm in Elw; injection Elw as <-; [exact H2 | lra].
  - rewrite Efw in Elw. cbn [mul] in Elw.
    destruct (Math_max_Fin 2 (fw * 0.45)) as (m & Hm & _ & _ & [-> | ->]);
      rewrite Hm in Elw; injection Elw as <-; [exact H2 | lra].
  - rewrite Elw, Efw in Hwidth. apply geb_Fin_false in Hwidth. exact Hwidth.
  - rewrite Elw, Efw in Hwidth. apply geb_Fin_false in Hwidth. exact Hwidth.
Qed.

(** C2: the repair [Math.max(2, faceWidth * 0.45)] is meant to bring the lip
    inside the rail, but on a rail no wider than 2 mm its floor puts the lip
    outside again: [faceWidth = 1, lipWidth = 5] normalizes to [lipWidth = 2],
    and [profileDepth = 1.5, lipDepth = 3] to [lipDepth = 2]. *)
Theorem thin_rail_keeps_lip_outside :
  let thinFace := normalizeParams (mkParams #600 #400 #1 #14 #5 #4 #0.4 "minimal") in
  let thinDepth := normalizeParams (mkParams #600 #400 #20 #1.5 #4 #3 #0.4 "minimal") in
  (faceWidth thinFace = #1 /\ lipWidth thinFace = #2 /\
   (lipWidth thinFace <? faceWidth thinFace) = false) /\
  (profileDepth thinDepth = #1.5 /\ lipDepth thinDepth = #2 /\
   (lipDepth thinDepth <? profileDepth thinDepth) = false).
Proof. vm_compute. repeat split. Qed.

(** C6 as stated fails: a clearance of 0 is not kept, the loop replaces it. *)
Lemma clearance_zero_not_preserved :
  ~ (forall p c, clearance p = Fin c -> (0 <= c)%Q ->
                 clearance (normalizeParams p) ≈ clearance p).
Proof.
  intros H.
  specialize (H (mkParams #600 #400 #20 #14 #4 #4 #0 "minimal") 0%Q
                eq_refl (Qle_refl 0)).
  vm_compute in H. discriminate H.
Qed.

(** C6 (amended): a finite clearance above 0 is returned unchanged; a finite
    clearance of 0 or below is replaced by the default, 0.4. *)
Theorem positive_clearance_is_kept (p : Params) (c : Q) :
  clearance p = Fin c ->
  ((0 < c)%Q -> clearance (normalizeParams p) = clearance p) /\
  ((c <= 0)%Q -> clearance (normalizeParams p) = #0.4).
Proof.
  intros Hc.
  destruct (normalize_untouched p) as (_ & _ & _ & _ & -> & _).
  split; intros Hsign.
  - apply (orFallback_keep _ Hc Hsign).
  - apply orFallback_replace. intros q Hq. rewrite Hc in Hq.
    injection Hq as <-. exact Hsign.
Qed.

(** The amended C6 at a clearance of 0.25. *)
Lemma positive_clearance_is_kept_at_a_quarter :
  clearance (normalizeParams (mkParams #600 #400 #20 #14 #4 #4 #0.25 "bold")) = #0.25.
Proof.
  apply (positive_clearance_is_kept
           (mkParams #600 #400 #20 #14 #4 #4 #0.25 "bold") eq_refl).
  reflexivity.
Defined.

(** C9: on finite positive inputs with [lipWidth < faceWidth] and
    [lipDepth < profileDepth], normalizing twice is normalizing once. *)
Theorem normalize_idempotent_on_consistent (p : Params) :
  (forall k, finitePositive (getKey k p)) ->
  (lipWidth p <? faceWidth p) = true ->
  (lipDepth p <? profileDepth p) = true ->
  normalizeParams (normalizeParams p) = normalizeParams p.
Proof.
  intros Hpos Hw Hd.
  rewrite (normalize_fixes_consistent p Hpos Hw Hd).
  apply (normalize_fixes_consistent p Hpos Hw Hd).
Qed.

(** C9 at the defaults. *)
Lemma normalize_idempotent_on_defaults :
  normalizeParams (normalizeParams defaults) = normalizeParams defaults.
Proof.
  apply normalize_idempotent_on_consistent.
  - intros k. destruct k; eexists; split; reflexivity.
  - reflexivity.
  - reflexivity.
Defined.

(** Idempotence does not need the hypotheses: the second pass finds every
    field finite and positive, and a lip the first pass repaired is repaired
    to the same value. *)
Lemma normalize_idempotent (p : Params) :
  normalizeParams (normalizeParams p) = normalizeParams p.
Proof.
  set (n := normalizeParams p).
  assert (Hloop : fold_left applyFallback numericDefaults n = n).
  { rewrite fallback_loop.
    destruct (normalize_finitePositive p Kwidth) as (q1 & E1 & P1),
      (normalize_finitePositive p Kheight) as (q2 & E2 & P2),
      (normalize_finitePositive p KfaceWidth) as (q3 & E3 & P3),
      (normalize_finitePositive p KprofileDepth) as (q4 & E4 & P4),
      (normalize_finitePositive p KlipWidth) as (q5 & E5 & P5),
      (normalize_finitePositive p KlipDepth) as (q6 & E6 & P6),
      (normalize_finitePositive p Kclearance) as (q7 & E7 & P7).
    cbn [getKey] in *. fold n in E1, E2, E3, E4, E5, E6, E7.
    rewrite (orFallback_keep _ E1 P1), (orFallback_keep _ E2 P2),
      (orFallback_keep _ E3 P3), (orFallback_keep _ E4 P4),
      (orFallback_keep _ E5 P5), (orFallback_keep _ E6 P6),
      (orFallback_keep _ E7 P7).
    destruct n; reflexivity. }
  rewrite (normalizeParams_unfold n), Hloop. cbn zeta.
  assert (Hw : (lipWidth n >=? faceWidth n) = true ->
               lipWidth n = Math_max #2 (faceWidth n * #0.45)).
  { subst n. split_lip_repairs; intros H; try reflexivity;
      rewrite H in Hwidth; discriminate Hwidth. }
  assert (Hd : (lipDepth n >=? profileDepth n) = true ->
               lipDepth n = Math_max #2 (profileDepth n * #0.35)).
  { subst n. split_lip_repairs; intros H; try reflexivity;
      rewrite H in Hdepth; discriminate Hdepth. }
  destruct (lipWidth n >=? faceWidth n).
  - rewrite <- (Hw eq_refl).
    replace (setKey KlipWidth (lipWidth n) n) with n by (destruct n; reflexivity).
    destruct (lipDepth n >=? profileDepth n); [|reflexivity].
    rewrite <- (Hd eq_refl). destruct n; reflexivity.
  - destruct (lipDepth n >=? profileDepth n); [|reflexivity].
    rewrite <- (Hd eq_refl). destruct n; reflexivity.
Qed.

End Normalize.

(** ** Profiles, pieces and the frame *)

Section Pieces.

Context {host : Host}.

Lemma orient_parameters (orientation : string) (g : BufferGeometry) :
  parameters (orient orientation g) = parameters g.
Proof.
  unfold orient.
  destruct (String.eqb orientation "horizontal"); [reflexivity|].
  destruct (String.eqb orientation "vertical"); reflexivity.
Qed.

Lemma createPiece_parameters (length : number) (orientation : string) (p : Params) :
  parameters (geometry (createPiece length orientation p)) =
  VObject
    [("shapes", VShape (buildProfileShape (faceWidth p) (profileDepth p)
                                          (lipWidth p) (lipDepth p)));
     ("options",
      VObject [("depth", VNumber length);
               ("bevelEnabled", VBoolean (String.eqb (style p) "bold"));
               ("bevelThickness",
                VNumber (if String.eqb (style p) "bold" then #1.2 else #0));
               ("bevelSize",
                VNumber (if String.eqb (style p) "bold" then #0.8 else #0));
               ("bevelSegments", VNumber #2)])].
Proof.
  unfold createPiece. cbn [geometry newMesh]. rewrite orient_parameters.
  destruct (String.eqb (style p) "wood"); reflexivity.
Qed.

(** C5: the rail profile is the closed ring on the six vertices of the L, in
    the order the spec lists them, and it is the shape [createPiece] extrudes;
    the lip overlay profile is a closed path of five points, the ring on the
    four corners of the lip rectangle set off by
    [(-faceWidth/2, -profileDepth/2)]. *)
Theorem profiles_are_closed_rings
    (faceWidth profileDepth lipWidth lipDepth length : number)
    (orientation style : string) (w h c : number) :
  let p := mkParams w h faceWidth profileDepth lipWidth lipDepth c style in
  let rail := buildProfileShape faceWidth profileDepth lipWidth lipDepth in
  let x0 := (- faceWidth / #2) in
  let y0 := (- profileDepth / #2) in
  let lipCorners :=
    [(x0, y0); (x0 + lipWidth, y0); (x0 + lipWidth, y0 + lipDepth);
     (x0, y0 + lipDepth)] in
  closedRing
    [(#0, #0); (faceWidth, #0); (faceWidth, profileDepth);
     (faceWidth - lipWidth, profileDepth); (faceWidth - lipWidth, lipDepth);
     (#0, lipDepth)] rail /\
  extrudedShape (createPiece length orientation p) = VShape rail /\
  exists lip,
    extrudedShape (createLipOverlay length orientation p) = VShape lip /\
    closedRing lipCorners lip /\
    List.length lip = 5%nat.
Proof.
  cbn zeta. split; [|split].
  - eexists _, _. split; reflexivity.
  - unfold extrudedShape. rewrite createPiece_parameters. reflexivity.
  - eexists. split; [|split].
    + unfold extrudedShape, createLipOverlay. cbn [geometry newMesh translate mapPosition parameters].
      rewrite orient_parameters. reflexivity.
    + eexists _, _. split; reflexivity.
    + reflexivity.
Qed.


(** C8: [createCornerInsert] recenters with
    [-geometry.parameters.depth / 2], but the [parameters] of an
    [ExtrudeGeometry] hold [shapes] and [options] only: the read yields
    [undefined], the offset is [NaN], and every vertex of the insert gets a
    [NaN] depth coordinate, whatever the parameters. *)
Theorem corner_insert_depth_is_NaN (p : Params) :
  getProp (parameters (geometry (createCornerInsert p))) "depth" = VUndefined /\
  Forall (fun v => vz v = NaN) (vertices (createCornerInsert p)).
Proof.
  split; [reflexivity|].
  unfold vertices, createCornerInsert.
  cbn [geometry newMesh translate mapPosition attributes_position parameters
       ExtrudeGeometry getProp lookupProp String.eqb Ascii.eqb Bool.eqb ToNumber
       neg div].
  apply Forall_forall. intros v Hv. apply in_map_iff in Hv.
  destruct Hv as (u & <- & _). cbn [vz]. apply add_NaN_r.
Qed.

End Pieces.

(** ** [buildFrame] and [downloadZip] *)

Section Frame.

Context {host : Host}.

Ltac run_buildFrame :=
  unfold buildFrame, bind, getWorld, setSceneFrame, setFrameGroup, setSummary,
    putWorld, ret, throw, resolveGlobal, bind, getWorld, putWorld, ret, throw;
  cbn zeta.

(** When the identifier resolves, the call returns and the world holds the
    composed frame and its summary. *)
Lemma buildFrame_resolved (g : GlobalObject) (v : value) (raw : Params) (w : World) :
  g "lipDepth" = Some v ->
  buildFrame g raw w =
  (Normal tt,
   {| frameGroup := Some (mkGroup (composedPieces v (normalizeParams raw)));
      sceneFrame := Some (mkGroup (composedPieces v (normalizeParams raw)));
      summary := Some (composedSummary (normalizeParams raw)) |}).
Proof.
  intros Hg. run_buildFrame. rewrite Hg.
  destruct (frameGroup w); reflexivity.
Qed.

(** When it does not, the first read throws: the old group has left the
    scene and [frameGroup] is a fresh, empty group. *)
Lemma buildFrame_unresolved (g : GlobalObject) (raw : Params) (w : World) :
  g "lipDepth" = None ->
  buildFrame g raw w =
  (Throw (ReferenceError "lipDepth"),
   {| frameGroup := Some (mkGroup []);
      sceneFrame := match frameGroup w with Some _ => None | None => sceneFrame w end;
      summary := summary w |}).
Proof.
  intros Hg. run_buildFrame. rewrite Hg.
  destruct (frameGroup w); reflexivity.
Qed.

(** [buildFrame] reads [lipDepth] without having destructured it from
    [safeParams].  In a realm whose global object does not define the name, the
    read throws a [ReferenceError] for every parameter set, before any piece
    is added: the world is left with an empty frame group.  The page is not
    such a realm: there the module has already looked the element up. *)
Theorem buildFrame_throws_on_unbound_lipDepth (raw : Params) (w : World) :
  fst (buildFrame bareGlobal raw w) = Throw (ReferenceError "lipDepth") /\
  framePieces (snd (buildFrame bareGlobal raw w)) = [] /\
  sceneFrame (snd (buildFrame bareGlobal raw initialWorld)) = None.
Proof.
  rewrite !buildFrame_unresolved by reflexivity. repeat split.
Qed.

(** In the page itself the name resolves to the [lipDepth] input element:
    the call returns a frame of twelve meshes, and the element converts to
    [NaN], which becomes the depth coordinate of all four inserts. *)
Lemma buildFrame_in_browser (raw : Params) (w : World) :
  let w' := snd (buildFrame browserWindow raw w) in
  fst (buildFrame browserWindow raw w) = Normal tt /\
  List.length (framePieces w') = 12%nat /\
  sceneFrame w' = frameGroup w' /\
  map (fun m => vz (position m)) (skipn 8 (framePieces w')) = [NaN; NaN; NaN; NaN].
Proof.
  cbn zeta.
  rewrite (@buildFrame_resolved browserWindow (VElement "lipDepth")) by reflexivity.
  repeat split.
Qed.

(** The four corner placements are the one insert, shared and turned by
    0, +90, -90 and 180 degrees about the depth axis. *)
Lemma frame_inserts_are_rotated_clones (v : value) (p : Params) :
  let inserts := skipn 8 (composedPieces v p) in
  map geometry inserts = repeat (geometry (createCornerInsert p)) 4 /\
  map material inserts = repeat (material (createCornerInsert p)) 4 /\
  map (fun m => vz (rotation m)) inserts =
    [#0; Math_PI / #2; - Math_PI / #2; Math_PI].
Proof. repeat split. Qed.


Lemma extrusionDepth_setPosition (pos : Vector3) (m : Mesh) :
  extrusionDepth (setPosition pos m) = extrusionDepth m.
Proof. reflexivity. Qed.

Lemma extrusionDepth_createPiece (length : number) (orientation : string) (p : Params) :
  extrusionDepth (createPiece length orientation p) = VNumber length.
Proof.
  unfold extrusionDepth. rewrite createPiece_parameters. reflexivity.
Qed.

(** C7: on the normalized parameters, the summary of [buildFrame] and the
    rail lengths of [buildFrame] and [downloadZip] are
    [innerWidth = width + 2*clearance], [innerHeight = height + 2*clearance],
    [horizontalLength = innerWidth + 2*lipWidth],
    [verticalLength = innerHeight + 2*lipWidth],
    [outerWidth = innerWidth + 2*faceWidth],
    [outerHeight = innerHeight + 2*faceWidth]; the defaults are their own
    normal form and give 600.8, 400.8, 608.8, 408.8, 640.8 and 440.8. *)
Theorem derived_dimensions :
  (forall (g : GlobalObject) (v : value) (raw : Params) (w : World),
      g "lipDepth" = Some v ->
      let p := normalizeParams raw in
      let w' := snd (buildFrame g raw w) in
      let innerW := width p + #2 * clearance p in
      let innerH := height p + #2 * clearance p in
      let horizontalLength := innerW + #2 * lipWidth p in
      let verticalLength := innerH + #2 * lipWidth p in
      let outerW := innerW + #2 * faceWidth p in
      let outerH := innerH + #2 * faceWidth p in
      let railLengths :=
        map VNumber [horizontalLength; horizontalLength;
                     verticalLength; verticalLength] in
      summary w' = Some (mkSummary innerW innerH outerW outerH) /\
      map extrusionDepth (firstn 4 (framePieces w')) = railLengths /\
      map (fun entry => extrusionDepth (snd entry)) (firstn 4 (downloadZip raw))
        = railLengths) /\
  (normalizeParams defaults = defaults /\
   summary (snd (buildFrame browserWindow defaults initialWorld))
     = Some (mkSummary #600.8 #400.8 #640.8 #440.8) /\
   map extrusionDepth
       (firstn 4 (framePieces (snd (buildFrame browserWindow defaults initialWorld))))
     = map VNumber [#608.8; #608.8; #408.8; #408.8] /\
   map (fun entry => extrusionDepth (snd entry)) (firstn 4 (downloadZip defaults))
     = map VNumber [#608.8; #608.8; #408.8; #408.8]).
Proof.
  split.
  - intros g v raw w Hg. cbn zeta.
    rewrite (buildFrame_resolved g raw w Hg).
    rewrite !(mul_comm #2).
    split; [reflexivity|]. split.
    + unfold framePieces, composedPieces.
      cbn [snd frameGroup children firstn map].
      rewrite !extrusionDepth_setPosition, !extrusionDepth_createPiece.
      reflexivity.
    + unfold downloadZip. cbn [map firstn snd].
      rewrite !extrusionDepth_setPosition, !extrusionDepth_createPiece.
      reflexivity.
  - rewrite (@buildFrame_resolved browserWindow (VElement "lipDepth")) by reflexivity.
    split; [reflexivity|]. split; [reflexivity|]. split.
    + unfold framePieces, composedPieces.
      cbn [snd frameGroup children firstn map].
      rewrite !extrusionDepth_setPosition, !extrusionDepth_createPiece.
      reflexivity.
    + unfold downloadZip. cbn [map firstn snd].
      rewrite !extrusionDepth_setPosition, !extrusionDepth_createPiece.
      reflexivity.
Qed.

(** The frame a build leaves behind, and whether the build returns, do
    not depend on the world it starts from; so a rebuild from the same
    parameters gives the same pieces, in number, in vertex count per piece
    and in every vertex position, whatever the style. *)
Theorem rebuild_is_deterministic
    (g : GlobalObject) (raw : Params) (w1 w2 : World) :
  let first := buildFrame g raw w1 in
  let second := buildFrame g raw w2 in
  let again := buildFrame g raw (snd first) in
  fst first = fst second /\
  framePieces (snd first) = framePieces (snd second) /\
  framePieces (snd again) = framePieces (snd first) /\
  List.length (framePieces (snd first)) = List.length (framePieces (snd again)) /\
  map (fun m => List.length (vertices m)) (framePieces (snd first)) =
    map (fun m => List.length (vertices m)) (framePieces (snd again)) /\
  map vertices (framePieces (snd first)) = map vertices (framePieces (snd again)).
Proof.
  cbn zeta. destruct (g "lipDepth") as [v|] eqn:Hg.
  - rewrite !(fun w => buildFrame_resolved g raw w Hg). repeat split.
  - rewrite !(fun w => buildFrame_unresolved g raw w Hg). repeat split.
Qed.

(** [createPiece] tests the style against ['bold'] and ['wood'] only. *)
Lemma createPiece_style (length : number) (orientation : string) (p : Params) (s : string) :
  String.eqb (style p) "bold" = String.eqb s "bold" ->
  String.eqb (style p) "wood" = String.eqb s "wood" ->
  createPiece length orientation p = createPiece length orientation (withStyle s p).
Proof.
  intros Hbold Hwood. unfold createPiece, addMiterEnds, miterVertex.
  cbn [withStyle style faceWidth profileDepth lipWidth lipDepth].
  rewrite Hbold, Hwood. reflexivity.
Qed.

Lemma unknown_style_tests (s : string) :
  ~ In s knownStyles -> String.eqb s "bold" = false /\ String.eqb s "wood" = false.
Proof.
  intros Hin. split; apply String.eqb_neq; intros ->; apply Hin; cbn; auto.
Qed.

(** C3 as stated fails: ['neon'] comes out of [normalizeParams] as ['neon']. *)
Lemma unknown_style_survives_normalize :
  ~ (forall p, ~ In (style p) knownStyles ->
               style (normalizeParams p) = "minimal").
Proof.
  intros H.
  specialize (H (withStyle "neon" defaults)).
  assert (Hneon : ~ In (style (withStyle "neon" defaults)) knownStyles).
  { cbn. intros [E | [E | [E | []]]]; discriminate E. }
  specialize (H Hneon). vm_compute in H. discriminate H.
Qed.

(** C3 (amended): [normalizeParams] returns the style it was given, known or
    not; the fallback happens where the style is used: for a style outside
    the known set [createPiece] builds exactly the mesh, geometry and
    material, it builds for ['minimal']. *)
Theorem style_is_never_rewritten :
  (forall p, style (normalizeParams p) = style p) /\
  (forall (length : number) (orientation : string) (p : Params),
      ~ In (style p) knownStyles ->
      createPiece length orientation p =
      createPiece length orientation (withStyle "minimal" p)).
Proof.
  split.
  - intros p. apply (normalize_untouched p).
  - intros length orientation p Hin.
    destruct (unknown_style_tests Hin) as (Hbold & Hwood).
    apply createPiece_style; [rewrite Hbold | rewrite Hwood]; reflexivity.
Qed.

End Frame.

(** ** No hidden input

    The host offers a random source; the pipeline must not draw on it.  Two
    hosts with the same geometry and trigonometry, whatever their random
    sequences, are told apart by no function of the generator. *)

Section NoHiddenInput.

Variables h1 h2 : Host.
Hypothesis Hsame : sameFacilities h1 h2.

Lemma createPiece_same (length : number) (orientation : string) (p : Params) :
  @createPiece h1 length orientation p = @createPiece h2 length orientation p.
Proof.
  destruct Hsame as (Hpi & Hsin & Hcos & Hext).
  unfold createPiece, orient, rotateX, rotateY, carveWoodgrain, carveVertex,
    ExtrudeGeometry.
  rewrite Hpi, Hsin, Hcos, Hext. reflexivity.
Qed.

Lemma createLipOverlay_same (length : number) (orientation : string) (p : Params) :
  @createLipOverlay h1 length orientation p = @createLipOverlay h2 length orientation p.
Proof.
  destruct Hsame as (Hpi & Hsin & Hcos & Hext).
  unfold createLipOverlay, orient, rotateX, rotateY, ExtrudeGeometry.
  rewrite Hpi, Hsin, Hcos, Hext. reflexivity.
Qed.

Lemma createCornerInsert_same (p : Params) :
  @createCornerInsert h1 p = @createCornerInsert h2 p.
Proof.
  destruct Hsame as (_ & _ & _ & Hext).
  unfold createCornerInsert, ExtrudeGeometry. rewrite Hext. reflexivity.
Qed.

Lemma composedPieces_same (v : value) (p : Params) :
  @composedPieces h1 v p = @composedPieces h2 v p.
Proof.
  unfold composedPieces. cbn zeta.
  rewrite !createPiece_same, !createLipOverlay_same, createCornerInsert_same.
  destruct Hsame as (-> & _). reflexivity.
Qed.

Lemma downloadZip_same (raw : Params) :
  @downloadZip h1 raw = @downloadZip h2 raw.
Proof.
  unfold downloadZip. cbn zeta. cbn [map].
  rewrite !createPiece_same, !createCornerInsert_same. reflexivity.
Qed.

(** C10: the pipeline has no input besides the parameters, the realm and the
    geometry and trigonometry of the host.  Built on two hosts that differ in
    their random sequences only, and from any two worlds, the frame is the
    same in completion, piece count, vertex count per piece and every vertex
    position, for every style, the woodgrain of ['wood'] included; a rebuild
    gives the frame again, and the exported meshes are the same too. *)
Theorem build_draws_on_no_hidden_input
    (g : GlobalObject) (raw : Params) (w1 w2 : World) :
  let first := @buildFrame h1 g raw w1 in
  let second := @buildFrame h2 g raw w2 in
  let again := @buildFrame h2 g raw (snd first) in
  fst first = fst second /\
  framePieces (snd first) = framePieces (snd second) /\
  framePieces (snd again) = framePieces (snd first) /\
  List.length (framePieces (snd first)) = List.length (framePieces (snd again)) /\
  map (fun m => List.length (vertices m)) (framePieces (snd first)) =
    map (fun m => List.length (vertices m)) (framePieces (snd again)) /\
  map vertices (framePieces (snd first)) = map vertices (framePieces (snd again)) /\
  @buildFrame h1 g raw w1 = @buildFrame h2 g raw w1 /\
  @downloadZip h1 raw = @downloadZip h2 raw.
Proof.
  cbn zeta. destruct (g "lipDepth") as [v|] eqn:Hg.
  - rewrite !(fun h w => @buildFrame_resolved h g v raw w Hg).
    rewrite composedPieces_same, downloadZip_same.
    unfold framePieces. cbn [fst snd frameGroup children].
    repeat (split; [reflexivity|]). reflexivity.
  - rewrite !(fun h w => @buildFrame_unresolved h g raw w Hg).
    rewrite downloadZip_same.
    unfold framePieces. cbn [fst snd frameGroup children].
    repeat (split; [reflexivity|]). reflexivity.
Qed.

End NoHiddenInput.

(** ** The end taper *)

Section Taper.

Context {host : Host}.

(** The guard of [addMiterEnds] is the complement of the taper zone, as long
    as neither the distance nor the span is [NaN]. *)
Lemma miter_guard (d span : number) :
  d <> NaN -> span <> NaN ->
  (d >=? span) || (d <? #0) = negb ((#0 <=? d) && (d <? span)).
Proof.
  intros Hd Hs. unfold geb.
  destruct d as [| | |a], span as [| | |b]; try congruence; cbn [leb ltb];
    repeat match goal with
           | |- context [Qle_bool ?x ?y] => destruct (Qle_bool x y)
           end;
    reflexivity.
Qed.

Lemma finite_is_Fin (a : number) : Number_isFinite a = true -> exists q, a = Fin q.
Proof. destruct a; try discriminate. eauto. Qed.

Lemma distanceFromEnd_Fin (L z : Q) :
  distanceFromEnd (Fin L) (Fin z) = Fin (L / 2 + - Qabs z).
Proof. reflexivity. Qed.

Lemma taperSpan_Fin (p : Params) (F P : Q) :
  faceWidth p = Fin F -> profileDepth p = Fin P ->
  exists m, taperSpan p = Fin (m * 1.1) /\ (m = F \/ m = P).
Proof.
  intros EF EP. unfold taperSpan. rewrite EF, EP, mul_comm.
  destruct (Math_max_Fin F P) as (m & -> & _ & _ & Hm). exists m. auto.
Qed.

(** [miterVertex], with the source's operand order turned into the spec's. *)
Lemma miterVertex_unfold (length : number) (p : Params) (v : Vector3) :
  miterVertex length p v =
  if (distanceFromEnd length (vz v) >=? taperSpan p)
     || (distanceFromEnd length (vz v) <? #0)
  then v
  else vec3 (vx v + taperSkew length p (vz v))
            (vy v + #0.55 * taperSkew length p (vz v))
            (vz v).
Proof.
  unfold miterVertex, taperSkew, taperSpan, distanceFromEnd. cbn zeta.
  rewrite (mul_comm #1.1), (mul_comm #0.8), (mul_comm #0.55). reflexivity.
Qed.

(** Vertex by vertex: displaced by [(skew, 0.55 skew)] inside the zone, left
    alone outside. *)
Lemma miterVertex_zone (length : number) (p : Params) (v : Vector3) :
  Number_isFinite length = true ->
  Number_isFinite (faceWidth p) = true ->
  Number_isFinite (profileDepth p) = true ->
  Number_isFinite (vz v) = true ->
  miterVertex length p v =
  if inTaperZone length p (vz v)
  then vec3 (vx v + taperSkew length p (vz v))
            (vy v + #0.55 * taperSkew length p (vz v))
            (vz v)
  else v.
Proof.
  intros HL HF HP Hz.
  apply finite_is_Fin in HL, HF, HP, Hz.
  destruct HL as (L & ->), HF as (F & EF), HP as (P & EP), Hz as (z & Ez).
  destruct (@taperSpan_Fin p F P EF EP) as (m & Ets & _).
  rewrite miterVertex_unfold, miter_guard.
  - unfold inTaperZone. destruct ((_ <=? _) && (_ <? _)); reflexivity.
  - rewrite Ez, distanceFromEnd_Fin. discriminate.
  - rewrite Ets. discriminate.
Qed.

(** *** The magnitude of the skew, over the rationals *)

Lemma Qabs_signQ (z : Q) : (Qabs (signQ z) == if zeroQ z then 0 else 1)%Q.
Proof.
  unfold signQ. destruct (zeroQ z); [reflexivity|].
  destruct (posQ z); reflexivity.
Qed.

Lemma ratio_bounds (ts d1 d2 : Q) :
  (0 <= d2 -> d2 <= d1 -> d1 < ts ->
   0 <= 1 - d1 / ts /\ 1 - d1 / ts <= 1 - d2 / ts)%Q.
Proof.
  intros H0 H12 Hts.
  assert (Hpos : (0 < ts)%Q) by lra.
  assert (Hinv : (0 < / ts)%Q) by (apply Qinv_lt_0_compat; exact Hpos).
  assert (H1 : (d1 / ts < 1)%Q).
  { apply Qlt_shift_div_r; [exact Hpos | lra]. }
  assert (H2 : (d2 / ts <= d1 / ts)%Q).
  { unfold Qdiv. apply Qmult_le_compat_r; [exact H12 | lra]. }
  lra.
Qed.

Lemma skew_magnitude_monotone (K ts d1 d2 z1 z2 : Q) :
  (0 <= d2 -> d2 <= d1 -> d1 < ts ->
   (z2 == 0 -> z1 == 0) ->
   Qabs (K * (1 - d1 / ts) * signQ z1) <= Qabs (K * (1 - d2 / ts) * signQ z2))%Q.
Proof.
  intros H0 H12 Hts Hz.
  destruct (@ratio_bounds ts d1 d2 H0 H12 Hts) as (Ht1 & Ht12).
  rewrite !Qabs_Qmult, !Qabs_signQ.
  rewrite (Qabs_pos (1 - d1 / ts)) by exact Ht1.
  rewrite (Qabs_pos (1 - d2 / ts)) by lra.
  pose proof (Qabs_nonneg K) as HK.
  set (a := Qabs K) in *.
  set (t1 := (1 - d1 / ts)%Q) in *. set (t2 := (1 - d2 / ts)%Q) in *.
  assert (Hprod : (a * t1 <= a * t2)%Q) by nra.
  assert (Hnn : (0 <= a * t1)%Q) by nra.
  destruct (zeroQ z2) eqn:E2.
  - apply Qeq_bool_iff in E2. apply Hz in E2. apply Qeq_bool_iff in E2.
    unfold zeroQ. rewrite E2. lra.
  - destruct (zeroQ z1); lra.
Qed.

Lemma shift_magnitude (x s : Q) : (Qabs (x + s + - x) == Qabs s)%Q.
Proof. apply Qabs_wd. ring. Qed.

Lemma scaled_shift_magnitude (y s : Q) :
  (Qabs (y + 0.55 * s + - y) == 0.55 * Qabs s)%Q.
Proof.
  assert (E : (y + 0.55 * s + - y == 0.55 * s)%Q) by ring.
  rewrite (Qabs_wd _ _ E), Qabs_Qmult. reflexivity.
Qed.

Lemma rest_magnitude (x : Q) : (Qabs (x + - x) == 0)%Q.
Proof.
  assert (E : (x + - x == 0)%Q) by ring.
  rewrite (Qabs_wd _ _ E). reflexivity.
Qed.

Lemma taperSkew_Fin (p : Params) (L F P m z : Q) :
  faceWidth p = Fin F -> profileDepth p = Fin P ->
  taperSpan p = Fin (m * 1.1) ->
  (0 < m * 1.1)%Q ->
  taperSkew (Fin L) p (Fin z) = Fin (skewQ L F P m z).
Proof.
  intros EF EP Ets Hpos. unfold taperSkew.
  rewrite Ets, EF, EP, distanceFromEnd_Fin.
  cbn [mul add sub neg div Math_sign].
  assert (Hz : zeroQ (m * 1.1) = false) by (apply zeroQ_false; lra).
  rewrite Hz. reflexivity.
Qed.

(** A finite vertex is either in the zone and displaced by its skew, or
    outside it and untouched. *)
Lemma miterVertex_cases (p : Params) (L F P m x y z : Q) :
  faceWidth p = Fin F -> profileDepth p = Fin P ->
  taperSpan p = Fin (m * 1.1) ->
  let d := (L / 2 + - Qabs z)%Q in
  let v := vec3 (Fin x) (Fin y) (Fin z) in
  ((0 <= d)%Q /\ (d < m * 1.1)%Q /\
   miterVertex (Fin L) p v =
     vec3 (Fin (x + skewQ L F P m z)) (Fin (y + 0.55 * skewQ L F P m z)) (Fin z))
  \/ (~ ((0 <= d)%Q /\ (d < m * 1.1)%Q) /\ miterVertex (Fin L) p v = v).
Proof.
  intros EF EP Ets d v.
  assert (Hzone : miterVertex (Fin L) p v =
                  if inTaperZone (Fin L) p (Fin z)
                  then vec3 (Fin x + taperSkew (Fin L) p (Fin z))
                            (Fin y + #0.55 * taperSkew (Fin L) p (Fin z)) (Fin z)
                  else v).
  { apply miterVertex_zone; try reflexivity; [rewrite EF | rewrite EP]; reflexivity. }
  rewrite Hzone. unfold inTaperZone. rewrite distanceFromEnd_Fin, Ets. fold d.
  destruct (#0 <=? Fin d) eqn:E0; cbn [andb].
  - apply leb_Fin in E0. destruct (Fin d <? Fin (m * 1.1)) eqn:E1.
    + apply ltb_Fin in E1. left. split; [exact E0|]. split; [exact E1|].
      rewrite (@taperSkew_Fin p L F P m z EF EP Ets) by lra. reflexivity.
    + apply ltb_Fin_false in E1. right. split; [|reflexivity].
      intros (_ & Hlt). lra.
  - apply leb_Fin_false in E0. right. split; [|reflexivity].
    intros (Hle & _). lra.
Qed.

(** Nearer to an end, the displacement is at least as large, on both axes. *)
Lemma taper_grows_toward_ends (length : number) (p : Params) (v1 v2 : Vector3) :
  Number_isFinite length = true ->
  Number_isFinite (faceWidth p) = true ->
  Number_isFinite (profileDepth p) = true ->
  finiteVertex v1 = true -> finiteVertex v2 = true ->
  (#0 <=? distanceFromEnd length (vz v2)) = true ->
  (distanceFromEnd length (vz v2) <=? distanceFromEnd length (vz v1)) = true ->
  (Math_abs (vx (miterVertex length p v1) - vx v1)
     <=? Math_abs (vx (miterVertex length p v2) - vx v2)) = true /\
  (Math_abs (vy (miterVertex length p v1) - vy v1)
     <=? Math_abs (vy (miterVertex length p v2) - vy v2)) = true.
Proof.
  intros HL HF HP Hv1 Hv2.
  apply finite_is_Fin in HL, HF, HP.
  destruct HL as (L & ->), HF as (F & EF), HP as (P & EP).
  destruct v1 as [a1 b1 c1], v2 as [a2 b2 c2].
  unfold finiteVertex in Hv1, Hv2. cbn [vx vy vz] in *.
  apply andb_prop in Hv1, Hv2.
  destruct Hv1 as (Hab1 & Hc1), Hv2 as (Hab2 & Hc2).
  apply andb_prop in Hab1, Hab2.
  destruct Hab1 as (Ha1 & Hb1), Hab2 as (Ha2 & Hb2).
  apply finite_is_Fin in Ha1, Hb1, Hc1, Ha2, Hb2, Hc2.
  destruct Ha1 as (x1 & ->), Hb1 as (y1 & ->), Hc1 as (z1 & ->),
    Ha2 as (x2 & ->), Hb2 as (y2 & ->), Hc2 as (z2 & ->).
  destruct (@taperSpan_Fin p F P EF EP) as (m & Ets & _).
  rewrite !distanceFromEnd_Fin. intros H0 H12.
  apply leb_Fin in H0, H12.
  assert (Hz : (z2 == 0 -> z1 == 0)%Q).
  { intros E. assert (E' : (Qabs z2 == 0)%Q) by (rewrite (Qabs_wd _ _ E); reflexivity).
    assert (Hle : (Qabs z1 <= 0)%Q) by lra.
    apply Qabs_Qle_condition in Hle. lra. }
  destruct (@miterVertex_cases p L F P m x1 y1 z1 EF EP Ets) as [(Hd1 & Ht1 & ->) | (Hout1 & ->)];
    destruct (@miterVertex_cases p L F P m x2 y2 z2 EF EP Ets) as [(Hd2 & Ht2 & ->) | (Hout2 & ->)];
    cbn [vx vy vz sub add neg Math_abs]; rewrite !leb_Fin.
  - pose proof (@skew_magnitude_monotone (F + 0.8 * P) (m * 1.1) _ _ z1 z2
                  H0 H12 Ht1 Hz) as Hmono.
    fold (skewQ L F P m z1) in Hmono. fold (skewQ L F P m z2) in Hmono.
    rewrite !scaled_shift_magnitude, !shift_magnitude. split; lra.
  - exfalso. apply Hout2. split; lra.
  - rewrite !rest_magnitude, scaled_shift_magnitude, shift_magnitude.
    pose proof (Qabs_nonneg (skewQ L F P m z2)). split; lra.
  - rewrite !rest_magnitude. split; lra.
Qed.

(** [createPiece] runs the taper on the recentred extrusion, before the
    woodgrain and the orientation, for every style. *)
Lemma createPiece_pipeline (length : number) (orientation : string) (p : Params) :
  exists shape settings,
    geometry (createPiece length orientation p) =
    orient orientation
      ((if String.eqb (style p) "wood" then carveWoodgrain length else fun g => g)
         (mapPosition (miterVertex length p)
            (translate (- faceWidth p / #2) (- profileDepth p / #2) (- length / #2)
               (ExtrudeGeometry shape settings)))).
Proof.
  eexists _, _. unfold createPiece, addMiterEnds. cbn [geometry newMesh].
  destruct (String.eqb (style p) "wood"); reflexivity.
Qed.

(** In [src/js/app.js] the rail is the recentred extrusion, jittered for
    ['wood'] and oriented: there is no taper stage. *)
Lemma app_js_rail_is_plain_extrusion
    (length : number) (orientation : string) (p : Params) :
  exists shape settings,
    geometry (AppJs.createPiece length orientation p) =
    orient orientation
      ((if String.eqb (style p) "wood" then AppJs.jitterWood else fun g => g)
         (translate (- faceWidth p / #2) (- profileDepth p / #2) (- length / #2)
            (ExtrudeGeometry shape settings))).
Proof.
  eexists _, _. unfold AppJs.createPiece. cbn [geometry newMesh].
  destruct (String.eqb (style p) "wood"); reflexivity.
Qed.

(** The lip overlay is the extrusion of the lip rectangle, oriented and then
    shifted along the depth axis: no taper stage either. *)
Lemma lip_overlay_is_plain_extrusion
    (length : number) (orientation : string) (p : Params) :
  exists lipShape settings,
    geometry (createLipOverlay length orientation p) =
    translate #0 #0 (- length / #2)
      (orient orientation (ExtrudeGeometry lipShape settings)).
Proof. eexists _, _. reflexivity. Qed.

(** C4 (amended): in [part_000], for every style, the geometry of every rail
    built by [createPiece] is the recentred extrusion with the end taper
    applied to each vertex (then the woodgrain for ['wood'], then the
    orientation).  On finite data the taper moves a vertex at axial
    coordinate [z] by [(skew, 0.55 skew)], with [half = length/2],
    [taperSpan = 1.1 max(faceWidth, profileDepth)],
    [distanceFromEnd = half - |z|] and
    [skew = (faceWidth + 0.8 profileDepth) (1 - distanceFromEnd/taperSpan) sign(z)],
    exactly when [0 <= distanceFromEnd < taperSpan], and leaves every other
    vertex where it is; between two vertices of the piece, the one nearer to
    its end is displaced at least as far on both axes. *)
Theorem end_taper_on_every_rail :
  (forall (length : number) (orientation : string) (p : Params),
      exists shape settings,
        geometry (createPiece length orientation p) =
        orient orientation
          ((if String.eqb (style p) "wood" then carveWoodgrain length else fun g => g)
             (mapPosition (miterVertex length p)
                (translate (- faceWidth p / #2) (- profileDepth p / #2) (- length / #2)
                   (ExtrudeGeometry shape settings))))) /\
  (forall (length : number) (p : Params) (v : Vector3),
      Number_isFinite length = true ->
      Number_isFinite (faceWidth p) = true ->
      Number_isFinite (profileDepth p) = true ->
      Number_isFinite (vz v) = true ->
      miterVertex length p v =
      if inTaperZone length p (vz v)
      then vec3 (vx v + taperSkew length p (vz v))
                (vy v + #0.55 * taperSkew length p (vz v))
                (vz v)
      else v) /\
  (forall (length : number) (p : Params) (v1 v2 : Vector3),
      Number_isFinite length = true ->
      Number_isFinite (faceWidth p) = true ->
      Number_isFinite (profileDepth p) = true ->
      finiteVertex v1 = true -> finiteVertex v2 = true ->
      (#0 <=? distanceFromEnd length (vz v2)) = true ->
      (distanceFromEnd length (vz v2) <=? distanceFromEnd length (vz v1)) = true ->
      (Math_abs (vx (miterVertex length p v1) - vx v1)
         <=? Math_abs (vx (miterVertex length p v2) - vx v2)) = true /\
      (Math_abs (vy (miterVertex length p v1) - vy v1)
         <=? Math_abs (vy (miterVertex length p v2) - vy v2)) = true).
Proof.
  split; [|split].
  - apply createPiece_pipeline.
  - apply miterVertex_zone.
  - apply taper_grows_toward_ends.
Qed.

End Taper.

(** ** Closed instances *)

(** C4 as stated fails.  At the far end of the top rail of the default frame
    the claimed skew is 31.2 mm, and [part_000] does shear its rail by it
    (vertex 7 is the first of the far cap under the example host); but the
    rail [src/js/app.js] builds from the same input stays where the extrusion
    put it, and so does the lip overlay of [part_000], whose far cap (vertex
    5) has the cross-section of its near cap (vertex 0). *)
Lemma rail_of_app_js_and_lip_overlay_are_not_tapered :
  taperSkew topLength defaults #304.4 ≈ #31.2 /\
  sameVertex (nth 7 (vertices (createPiece topLength "horizontal" defaults)) origin)
             (vec3 #304.4 #(-7 + 0.55 * 31.2) #(10 - 31.2)) /\
  sameVertex (nth 7 (vertices (AppJs.createPiece topLength "horizontal" defaults)) origin)
             (vec3 #304.4 #(-7) #10) /\
  ~ sameVertex (nth 7 (vertices (AppJs.createPiece topLength "horizontal" defaults)) origin)
               (vec3 #304.4 #(-7 + 0.55 * 31.2) #(10 - 31.2)) /\
  sameVertex (nth 0 (vertices (createLipOverlay topLength "horizontal" defaults)) origin)
             (vec3 #0 #(-7) #(10 - 304.4)) /\
  sameVertex (nth 5 (vertices (createLipOverlay topLength "horizontal" defaults)) origin)
             (vec3 #608.8 #(-7) #(10 - 304.4)).
Proof.
  split; [reflexivity|]. split; [repeat split|]. split; [repeat split|].
  split; [|repeat split].
  intros (_ & Hy & _). vm_compute in Hy. discriminate Hy.
Qed.

(** The vertices of the default insert under the example host: fourteen, each
    with a [NaN] depth coordinate. *)
Lemma default_insert_vertices :
  map vz (vertices (createCornerInsert defaults)) = repeat NaN 14.
Proof. reflexivity. Qed.

(** The amended C3 at ['neon']. *)
Lemma neon_rail_is_minimal_rail :
  createPiece topLength "horizontal" (withStyle "neon" defaults) =
  createPiece topLength "horizontal" (withStyle "minimal" (withStyle "neon" defaults)).
Proof.
  apply (proj2 style_is_never_rewritten).
  cbn. intros [E | [E | [E | []]]]; discriminate E.
Defined.

(** The amended C4 at the first vertex of the far end of the default top rail. *)
Lemma end_taper_at_far_end_of_top_rail :
  miterVertex topLength defaults (vec3 #(-10) #(-7) #304.4) =
  vec3 (#(-10) + taperSkew topLength defaults #304.4)
       (#(-7) + #0.55 * taperSkew topLength defaults #304.4)
       #304.4.
Proof.
  apply (proj1 (proj2 end_taper_on_every_rail) topLength defaults
               (vec3 #(-10) #(-7) #304.4));
    reflexivity.
Defined.

(** C7 for the default frame built in the page. *)
Lemma derived_dimensions_in_browser :
  summary (snd (buildFrame browserWindow defaults initialWorld)) =
  Some (mkSummary (#600 + #2 * #0.4) (#400 + #2 * #0.4)
                  (#600 + #2 * #0.4 + #2 * #20) (#400 + #2 * #0.4 + #2 * #20)).
Proof.
  apply (proj1 derived_dimensions browserWindow (VElement "lipDepth")
               defaults initialWorld).
  reflexivity.
Defined.

(** * Further properties *)

(** ** [normalizeParams] on arbitrary input *)

Section NormalizeMore.

(** The lip fields after normalization, spelled out. *)
Lemma normalize_lips (p : Params) :
  let lw := orFallback (lipWidth p) #4 in
  let fw := orFallback (faceWidth p) #20 in
  let ld := orFallback (lipDepth p) #4 in
  let pd := orFallback (profileDepth p) #14 in
  lipWidth (normalizeParams p) =
    (if lw >=? fw then Math_max #2 (fw * #0.45) else lw) /\
  lipDepth (normalizeParams p) =
    (if ld >=? pd then Math_max #2 (pd * #0.35) else ld).
Proof.
  cbn zeta. rewrite normalizeParams_unfold, fallback_loop. cbn zeta.
  cbn [lipWidth faceWidth].
  destruct (orFallback (lipWidth p) #4 >=? orFallback (faceWidth p) #20);
    cbn [setKey width height faceWidth profileDepth lipWidth lipDepth clearance style];
    destruct (orFallback (lipDepth p) #4 >=? orFallback (profileDepth p) #14);
    split; reflexivity.
Qed.

(** What one repair leaves: a lip inside its side, or the 2 mm floor on a
    side no larger than the floor. *)
Lemma repair_outcome (lip side : number) (factor : Q) :
  finitePositive lip -> finitePositive side ->
  (0 <= factor)%Q -> (factor < 1)%Q ->
  let lip' := if lip >=? side then Math_max #2 (side * Fin factor) else lip in
  (lip' <? side) = true \/ ((side <=? #2) = true /\ lip' = #2).
Proof.
  intros (l & -> & Hl) (f & -> & Hf) H0 H1. cbn zeta.
  destruct (Fin l >=? Fin f) eqn:E.
  - cbn [mul]. destruct (Qlt_le_dec 2 f) as [Hbig | Hsmall].
    + left.
      destruct (Math_max_Fin 2 (f * factor)) as (m & -> & _ & _ & [-> | ->]);
        apply ltb_Fin; [exact Hbig | nra].
    + right. split; [apply leb_Fin; exact Hsmall|].
      unfold Math_max.
      assert (Hlt : (Fin 2 <=? Fin (f * factor)) = false)
        by (apply leb_Fin_false; nra).
      rewrite Hlt. reflexivity.
  - left. apply geb_Fin_false in E. apply ltb_Fin. exact E.
Qed.

(** X1: whatever the input, [NaN] and infinities included, every numeric
    field of the normalized parameters is a finite number above 0. *)
Theorem normalized_fields_are_finite_and_positive (p : Params) (k : NumericKey) :
  Number_isFinite (getKey k (normalizeParams p)) = true /\
  (#0 <? getKey k (normalizeParams p)) = true.
Proof.
  destruct (normalize_finitePositive p k) as (q & -> & Hq).
  split; [reflexivity | apply ltb_Fin; exact Hq].
Qed.

(** X2: normalizing twice is normalizing once, for every input. *)
Theorem normalizeParams_idempotent_everywhere (p : Params) :
  normalizeParams (normalizeParams p) = normalizeParams p.
Proof. apply normalize_idempotent. Qed.

(** X3: after normalization the lip is strictly inside the rail, in width
    and in depth, except on a side of at most 2 mm, where the lip is exactly
    the 2 mm floor of the repair. *)
Theorem normalized_lip_is_inside_or_at_floor (p : Params) :
  let n := normalizeParams p in
  ((lipWidth n <? faceWidth n) = true \/
   ((faceWidth n <=? #2) = true /\ lipWidth n = #2)) /\
  ((lipDepth n <? profileDepth n) = true \/
   ((profileDepth n <=? #2) = true /\ lipDepth n = #2)).
Proof.
  cbn zeta.
  destruct (normalize_lips p) as (Hlw & Hld). cbn zeta in Hlw, Hld.
  destruct (normalize_untouched p) as (_ & _ & Hfw & Hpd & _ & _).
  rewrite Hlw, Hld, Hfw, Hpd. split.
  - apply (@repair_outcome _ _ 0.45);
      try (apply orFallback_finitePositive, finitePositive_literal; reflexivity);
      [discriminate | reflexivity].
  - apply (@repair_outcome _ _ 0.35);
      try (apply orFallback_finitePositive, finitePositive_literal; reflexivity);
      [discriminate | reflexivity].
Qed.

(** X4: for [width], [height], [faceWidth], [profileDepth] and [clearance],
    a finite value above 0 comes out as it went in, and anything else ([NaN],
    an infinity, 0, a negative number) comes out as the default of the key. *)
Theorem plain_keys_are_kept_or_defaulted (p : Params) (k : NumericKey) :
  plainKey k = true ->
  getKey k (normalizeParams p) =
  if Number_isFinite (getKey k p) && (#0 <? getKey k p)
  then getKey k p
  else getKey k defaults.
Proof.
  intros Hk.
  destruct (normalize_untouched p) as (Hw & Hh & Hfw & Hpd & Hc & _).
  assert (Hor : forall v fb,
             orFallback v fb = if Number_isFinite v && (#0 <? v) then v else fb).
  { intros v fb. unfold orFallback. destruct v as [| | |q]; try reflexivity.
    cbn [Number_isFinite negb orb andb leb ltb].
    destruct (Qle_bool q 0); reflexivity. }
  destruct k; try discriminate Hk; cbn [getKey];
    rewrite ?Hw, ?Hh, ?Hfw, ?Hpd, ?Hc; apply Hor.
Qed.

End NormalizeMore.

(** X4 at a width that is not a number. *)
Lemma width_NaN_becomes_600 :
  width (normalizeParams (mkParams NaN #400 #20 #14 #4 #4 #0.4 "minimal")) = #600.
Proof.
  apply (@plain_keys_are_kept_or_defaulted
           (mkParams NaN #400 #20 #14 #4 #4 #0.4 "minimal") Kwidth).
  reflexivity.
Defined.

(** ** Pieces: lengths, vertex counts, axial coordinates *)

Section PiecesMore.

Context {host : Host}.

Lemma withinBound_Fin (q : Q) : withinBound (Fin q) -> (q <= 1000000000)%Q.
Proof. intros H. apply leb_Fin in H. exact H. Qed.

Lemma span_Fin (w c l : number) :
  finitePositive w -> finitePositive c -> finitePositive l ->
  withinBound w -> withinBound c -> withinBound l ->
  exists L lw, w + c * #2 + l * #2 = Fin L /\ l = Fin lw /\
               (2 * lw <= L)%Q /\ (0 < L)%Q /\ (L <= 5000000000)%Q.
Proof.
  intros (a & -> & Ha) (b & -> & Hb) (d & -> & Hd) Bw Bc Bl.
  apply withinBound_Fin in Bw, Bc, Bl.
  exists (a + b * 2 + d * 2)%Q, d. repeat split; lra.
Qed.

(** X5: when the normalized width, height, clearance and lip width are at
    most a thousand kilometres, every rail handed to the exporter is extruded
    to a finite length of at least twice the lip width, above 0 and at most
    five times the bound: no rail is empty and [carveWoodgrain] never divides
    by 0. *)
Theorem rail_lengths_exceed_the_lips (raw : Params) :
  let n := normalizeParams raw in
  withinBound (width n) -> withinBound (height n) ->
  withinBound (clearance n) -> withinBound (lipWidth n) ->
  exists lw,
    lipWidth n = Fin lw /\
    Forall (fun entry =>
              exists L, extrusionDepth (snd entry) = VNumber (Fin L) /\
                        (2 * lw <= L)%Q /\ (0 < L)%Q /\ (L <= 5000000000)%Q)
           (firstn 4 (downloadZip raw)).
Proof.
  cbn zeta. intros Bw Bh Bc Bl.
  pose proof (normalize_finitePositive raw) as Hpos.
  destruct (span_Fin (Hpos Kwidth) (Hpos Kclearance) (Hpos KlipWidth) Bw Bc Bl)
    as (Lh & lw & Eh & Elw & Hh & Hh0 & Hh1).
  destruct (span_Fin (Hpos Kheight) (Hpos Kclearance) (Hpos KlipWidth) Bh Bc Bl)
    as (Lv & lw' & Ev & Elw' & Hv & Hv0 & Hv1).
  cbn [getKey] in *.
  assert (lw' = lw) by congruence. subst lw'.
  exists lw. split; [exact Elw|].
  unfold downloadZip. cbn [map firstn].
  repeat (apply Forall_cons;
          [cbn [snd]; rewrite extrusionDepth_setPosition, extrusionDepth_createPiece;
           rewrite ?Eh, ?Ev; eexists; split; [reflexivity|]; auto|]).
  apply Forall_nil.
Qed.

Lemma mapPosition_length (f : Vector3 -> Vector3) (g : BufferGeometry) :
  List.length (attributes_position (mapPosition f g)) =
  List.length (attributes_position g).
Proof. apply length_map. Qed.

Lemma orient_length (orientation : string) (g : BufferGeometry) :
  List.length (attributes_position (orient orientation g)) =
  List.length (attributes_position g).
Proof.
  unfold orient, rotateX, rotateY.
  destruct (String.eqb orientation "horizontal"); [apply mapPosition_length|].
  destruct (String.eqb orientation "vertical"); [apply mapPosition_length|].
  reflexivity.
Qed.

(** X6: a rail, a lip overlay and a corner insert each have exactly as many
    vertices as the extrusion of the shape and options they record:
    recentring, taper, woodgrain and orientation move vertices, they never
    add or drop one. *)
Theorem pieces_keep_the_vertices_of_their_extrusion
    (length : number) (orientation : string) (p : Params) :
  List.length (vertices (createPiece length orientation p)) =
    List.length (extrusionOf (createPiece length orientation p)) /\
  List.length (vertices (createLipOverlay length orientation p)) =
    List.length (extrusionOf (createLipOverlay length orientation p)) /\
  List.length (vertices (createCornerInsert p)) =
    List.length (extrusionOf (createCornerInsert p)).
Proof.
  split; [|split].
  - unfold extrusionOf, extrudedShape. rewrite createPiece_parameters.
    unfold vertices, createPiece. cbn [geometry newMesh].
    rewrite orient_length.
    destruct (String.eqb (style p) "wood");
      unfold carveWoodgrain, addMiterEnds, translate;
      rewrite ?mapPosition_length; reflexivity.
  - unfold extrusionOf, extrudedShape, vertices, createLipOverlay.
    cbn [geometry newMesh]. unfold translate at 1.
    rewrite mapPosition_length, orient_length.
    cbn [translate mapPosition parameters]. rewrite orient_parameters.
    reflexivity.
  - unfold extrusionOf, extrudedShape, vertices, createCornerInsert.
    cbn [geometry newMesh]. unfold translate.
    rewrite mapPosition_length. reflexivity.
Qed.

(** X7: the taper and the woodgrain carving of [part_000] work in the
    cross-section only: applied to any geometry, in the order of
    [createPiece], they leave the axial coordinate of every vertex as it was
    (the jitter of [src/js/app.js] does not: it adds its noise to [z]). *)
Theorem taper_and_grain_keep_the_axial_coordinate
    (length : number) (p : Params) (g : BufferGeometry) :
  map vz (attributes_position (carveWoodgrain length (addMiterEnds length p g))) =
  map vz (attributes_position g) /\
  map vz (attributes_position (addMiterEnds length p g)) =
  map vz (attributes_position g) /\
  map vy (attributes_position (AppJs.jitterWood g)) =
  map vy (attributes_position g).
Proof.
  assert (Hm : forall v, vz (miterVertex length p v) = vz v).
  { intros v. unfold miterVertex. cbn zeta.
    destruct (_ || _); reflexivity. }
  unfold carveWoodgrain, addMiterEnds, AppJs.jitterWood, mapPosition.
  cbn [attributes_position]. rewrite !map_map.
  split; [|split]; apply map_ext; intros v; cbn [vz vy carveVertex AppJs.jitterVertex];
    try apply Hm; reflexivity.
Qed.

End PiecesMore.

(** ** The end taper: symmetry and bound *)

Section TaperMore.

Lemma Qabs_opp_eq (z : Q) : Qabs (- z) = Qabs z.
Proof.
  destruct z as [n d]. unfold Qabs, Qopp. cbn [Qnum Qden].
  rewrite Z.abs_opp. reflexivity.
Qed.

Lemma signQ_opp (z : Q) : (signQ (- z) == - signQ z)%Q.
Proof.
  unfold signQ.
  destruct (zeroQ z) eqn:Ez, (zeroQ (- z)) eqn:Ez'.
  - reflexivity.
  - apply (proj1 (zeroQ_true z)) in Ez. apply (proj1 (zeroQ_false (- z))) in Ez'.
    exfalso. apply Ez'. lra.
  - apply (proj1 (zeroQ_false z)) in Ez. apply (proj1 (zeroQ_true (- z))) in Ez'.
    exfalso. apply Ez. lra.
  - apply (proj1 (zeroQ_false z)) in Ez.
    destruct (posQ z) eqn:Ep, (posQ (- z)) eqn:Ep'; try reflexivity; exfalso.
    + apply (proj1 (posQ_true z)) in Ep. apply (proj1 (posQ_true (- z))) in Ep'. lra.
    + apply (proj1 (posQ_false z)) in Ep. apply (proj1 (posQ_false (- z))) in Ep'.
      apply Ez. lra.
Qed.

(** The span of the taper zone of parameters with positive sides. *)
Lemma taperSpan_positive (p : Params) :
  finitePositive (faceWidth p) -> finitePositive (profileDepth p) ->
  exists F P m, faceWidth p = Fin F /\ profileDepth p = Fin P /\
                taperSpan p = Fin (m * 1.1) /\
                (0 < F)%Q /\ (0 < P)%Q /\ (0 < m * 1.1)%Q.
Proof.
  intros (F & EF & HF) (P & EP & HP).
  destruct (@taperSpan_Fin p F P EF EP) as (m & Ets & [-> | ->]);
    exists F, P; eexists; repeat split; eauto; lra.
Qed.

(** X8: the two ends of a rail are sheared in opposite directions.  On
    finite data with positive sides, the mirror image [-z] of an axial
    coordinate is in the taper zone exactly when [z] is, and its skew is the
    opposite of the skew at [z]. *)
Theorem taper_is_odd_in_the_axial_coordinate
    (length : number) (p : Params) (z : number) :
  Number_isFinite length = true ->
  finitePositive (faceWidth p) -> finitePositive (profileDepth p) ->
  Number_isFinite z = true ->
  inTaperZone length p (- z) = inTaperZone length p z /\
  taperSkew length p (- z) ≈ - taperSkew length p z.
Proof.
  intros HL HF HP Hz.
  apply finite_is_Fin in HL, Hz. destruct HL as (L & ->), Hz as (q & ->).
  destruct (@taperSpan_positive p HF HP) as (F & P & m & EF & EP & Ets & _ & _ & Hm).
  cbn [neg]. split.
  - unfold inTaperZone. rewrite !distanceFromEnd_Fin, Qabs_opp_eq. reflexivity.
  - rewrite !(@taperSkew_Fin p L F P m _ EF EP Ets Hm). cbn [neg same].
    unfold skewQ. rewrite Qabs_opp_eq, signQ_opp. ring.
Qed.

(** X8 at the two ends of the default top rail. *)
Lemma taper_is_odd_on_the_default_top_rail :
  inTaperZone topLength defaults (- #304.4) = inTaperZone topLength defaults #304.4 /\
  taperSkew topLength defaults (- #304.4) ≈ - taperSkew topLength defaults #304.4.
Proof.
  apply taper_is_odd_in_the_axial_coordinate;
    try reflexivity; eexists; split; reflexivity.
Defined.

(** X9: the shear is bounded.  On finite data with positive sides, a vertex
    in the taper zone is skewed by at most [faceWidth + 0.8 profileDepth],
    and by exactly that much at the very end of the piece. *)
Theorem taper_skew_is_bounded (length : number) (p : Params) (z : number) :
  Number_isFinite length = true ->
  finitePositive (faceWidth p) -> finitePositive (profileDepth p) ->
  Number_isFinite z = true ->
  (inTaperZone length p z = true ->
   (Math_abs (taperSkew length p z)
      <=? faceWidth p + #0.8 * profileDepth p) = true) /\
  (distanceFromEnd length z ≈ #0 -> (#0 <? Math_abs z) = true ->
   Math_abs (taperSkew length p z) ≈ faceWidth p + #0.8 * profileDepth p).
Proof.
  intros HL HF HP Hz.
  apply finite_is_Fin in HL, Hz. destruct HL as (L & ->), Hz as (q & ->).
  destruct (@taperSpan_positive p HF HP)
    as (F & P & m & EF & EP & Ets & HF0 & HP0 & Hm).
  rewrite (@taperSkew_Fin p L F P m q EF EP Ets Hm), EF, EP.
  unfold inTaperZone. rewrite distanceFromEnd_Fin, Ets.
  cbn [Math_abs mul add same]. unfold skewQ.
  set (d := (L / 2 + - Qabs q)%Q). set (ts := (m * 1.1)%Q) in *.
  assert (HK : (Qabs (F + 0.8 * P) == F + 0.8 * P)%Q) by (apply Qabs_pos; lra).
  split.
  - intros Hzone. apply andb_prop in Hzone. destruct Hzone as (H0 & H1).
    apply leb_Fin in H0. apply ltb_Fin in H1. apply leb_Fin.
    destruct (@ratio_bounds ts d 0 (Qle_refl 0) H0 H1) as (Ht0 & Ht1).
    assert (Hone : (1 - 0 / ts == 1)%Q) by (unfold Qdiv; ring).
    rewrite !Qabs_Qmult, HK, Qabs_signQ.
    rewrite (Qabs_pos (1 - d / ts)) by exact Ht0.
    destruct (zeroQ q); nra.
  - intros Hd Hq. cbn [same] in Hd. apply ltb_Fin in Hq.
    assert (Hnz : zeroQ q = false).
    { apply zeroQ_false. intros E. rewrite (Qabs_wd _ _ E) in Hq.
      apply (Qlt_irrefl 0). exact Hq. }
    rewrite !Qabs_Qmult, HK, Qabs_signQ, Hnz.
    assert (Ht : (1 - d / ts == 1)%Q).
    { rewrite Hd. unfold Qdiv. ring. }
    rewrite Ht. cbn. ring.
Qed.

(** X9 at the far end of the default top rail: the skew is 31.2. *)
Lemma taper_skew_at_the_end_of_the_default_top_rail :
  (Math_abs (taperSkew topLength defaults #304.4) <=? #20 + #0.8 * #14) = true.
Proof.
  apply (@taper_skew_is_bounded topLength defaults #304.4);
    try reflexivity; eexists; split; reflexivity.
Defined.

End TaperMore.

(** ** The woodgrain *)

Section Woodgrain.

Context {host : Host}.

Lemma bump_bound (s c : Q) :
  (-1 <= s)%Q -> (s <= 1)%Q -> (-1 <= c)%Q -> (c <= 1)%Q ->
  (Qabs ((s + c * 0.6) * 0.55) <= 0.88)%Q.
Proof.
  intros. apply Qabs_Qle_condition. split; lra.
Qed.

Lemma carveVertex_bounded (length : number) (v : Vector3) :
  intoUnitInterval Math_sin -> intoUnitInterval Math_cos ->
  Number_isFinite Math_PI = true ->
  finitePositive length -> finiteVertex v = true ->
  (Math_abs (vx (carveVertex length #0.55 v) - vx v) <=? #0.132) = true /\
  (Math_abs (vy (carveVertex length #0.55 v) - vy v) <=? #0.308) = true.
Proof.
  intros Hsin Hcos Hpi (L & -> & HL) Hv.
  apply finite_is_Fin in Hpi. destruct Hpi as (pi & Epi).
  destruct v as [a b c]. unfold finiteVertex in Hv. cbn [vx vy vz] in Hv.
  apply andb_prop in Hv. destruct Hv as (Hab & Hc).
  apply andb_prop in Hab. destruct Hab as (Ha & Hb).
  apply finite_is_Fin in Ha, Hb, Hc.
  destruct Ha as (x & ->), Hb as (y & ->), Hc as (z & ->).
  unfold carveVertex. cbn [vx vy vz]. rewrite Epi.
  assert (HLz : zeroQ L = false) by (apply zeroQ_false; lra).
  cbn [div]. rewrite HLz. cbn [mul add].
  destruct (Hsin (z / L * pi * 8 + x * 0.08)%Q) as (s & -> & Hs1 & Hs2).
  destruct (Hcos (z / L * pi * 3)%Q) as (c & -> & Hc1 & Hc2).
  cbn [mul add sub neg Math_abs]. rewrite !leb_Fin.
  pose proof (@bump_bound s c Hs1 Hs2 Hc1 Hc2) as Hb.
  set (bump := ((s + c * 0.6) * 0.55)%Q) in *.
  assert (Ex : (Qabs (x + bump * 0.15 + - x) == Qabs bump * 0.15)%Q).
  { assert (E : (x + bump * 0.15 + - x == bump * 0.15)%Q) by ring.
    rewrite (Qabs_wd _ _ E), Qabs_Qmult. reflexivity. }
  assert (Ey : (Qabs (y + bump * 0.35 + - y) == Qabs bump * 0.35)%Q).
  { assert (E : (y + bump * 0.35 + - y == bump * 0.35)%Q) by ring.
    rewrite (Qabs_wd _ _ E), Qabs_Qmult. reflexivity. }
  rewrite Ex, Ey. split; lra.
Qed.

(** X10: the woodgrain is a shallow relief.  If the host's [Math.sin] and
    [Math.cos] map finite numbers into [-1, 1] and [Math.PI] is finite, then
    on a piece of finite positive length [carveWoodgrain] moves every finite
    vertex by at most 0.132 along the face and 0.308 along the depth. *)
Theorem woodgrain_is_a_shallow_relief (length : number) (g : BufferGeometry) :
  intoUnitInterval Math_sin -> intoUnitInterval Math_cos ->
  Number_isFinite Math_PI = true ->
  finitePositive length ->
  Forall (fun v => finiteVertex v = true) (attributes_position g) ->
  Forall2 (fun v v' =>
             (Math_abs (vx v' - vx v) <=? #0.132) = true /\
             (Math_abs (vy v' - vy v) <=? #0.308) = true)
          (attributes_position g)
          (attributes_position (carveWoodgrain length g)).
Proof.
  intros Hsin Hcos Hpi HL Hfin.
  unfold carveWoodgrain, mapPosition. cbn [attributes_position].
  induction Hfin as [|v vs Hv _ IH]; cbn [map]; constructor.
  - apply carveVertex_bounded; assumption.
  - exact IH.
Qed.

End Woodgrain.

(** The tabulated sine and cosine of the example host stay in [-1, 1]. *)
Lemma prismHost_into_unit_interval :
  intoUnitInterval (@Math_sin prismHost) /\ intoUnitInterval (@Math_cos prismHost).
Proof.
  split; intros q; cbn [Math_sin Math_cos prismHost].
  - destruct (Fin q <? #0); [exists (-1)%Q; repeat split; discriminate|].
    destruct (#0 <? Fin q); [exists 1%Q | exists 0%Q]; repeat split; discriminate.
  - destruct ((Fin q <? #0) || (#0 <? Fin q)); [exists 0%Q | exists 1%Q];
      repeat split; discriminate.
Qed.

(** X10 on a two-vertex geometry, under the example host. *)
Lemma woodgrain_is_shallow_on_a_sample :
  let g := mkGeometry VUndefined [vec3 #1 #2 #3; vec3 #(-4) #0 #(-50)] in
  Forall2 (fun v v' =>
             (Math_abs (vx v' - vx v) <=? #0.132) = true /\
             (Math_abs (vy v' - vy v) <=? #0.308) = true)
          (attributes_position g)
          (attributes_position (carveWoodgrain #100 g)).
Proof.
  apply (@woodgrain_is_a_shallow_relief prismHost).
  - apply prismHost_into_unit_interval.
  - apply prismHost_into_unit_interval.
  - reflexivity.
  - exists 100%Q. split; reflexivity.
  - repeat constructor.
Defined.

(** ** The frame: layout, export, sessions *)

Section FrameMore.

Context {host : Host}.

(** X11: in the frame [buildFrame] composes, each lip overlay has the
    position of its rail; the bottom rail is a copy of the top rail, the same
    mesh moved to the opposite height and not reflected, and the left rail is
    such a copy of the right rail; the four inserts take the four sign
    combinations of one corner offset, all at the depth
    [0.2 * ToNumber(lipDepth)] of the global the name resolves to. *)
Theorem frame_places_copies_at_opposite_positions
    (g : GlobalObject) (v : value) (raw : Params) (w : World) :
  g "lipDepth" = Some v ->
  let pieces := framePieces (snd (buildFrame g raw w)) in
  map position (firstn 4 (skipn 4 pieces)) = map position (firstn 4 pieces) /\
  (exists horizontal vertical x y,
      firstn 4 pieces =
      [setPosition (vec3 #0 y #0) horizontal;
       setPosition (vec3 #0 (- y) #0) horizontal;
       setPosition (vec3 (- x) #0 #0) vertical;
       setPosition (vec3 x #0 #0) vertical]) /\
  (exists cx cy,
      map position (skipn 8 pieces) =
      [vec3 cx cy (ToNumber v * #0.2);
       vec3 cx (- cy) (ToNumber v * #0.2);
       vec3 (- cx) cy (ToNumber v * #0.2);
       vec3 (- cx) (- cy) (ToNumber v * #0.2)]).
Proof.
  intros Hg. cbn zeta. rewrite (buildFrame_resolved g raw w Hg).
  unfold framePieces, composedPieces.
  cbn [snd frameGroup children map firstn skipn].
  unfold setRotationZ, setPosition. cbn [position].
  split; [reflexivity|]. split.
  - eexists _, _, _, _. reflexivity.
  - eexists _, _. reflexivity.
Qed.

(** X12: what is exported is what is shown.  The four rails [downloadZip]
    hands to the exporter have the geometry and material of the four rails of
    the frame built from the same input, the two exported inserts those of the
    frame's inserts; every exported mesh sits at the origin, unrotated; the
    lip overlays are not exported. *)
Theorem export_matches_the_frame
    (g : GlobalObject) (v : value) (raw : Params) (w : World) :
  g "lipDepth" = Some v ->
  let pieces := framePieces (snd (buildFrame g raw w)) in
  let exported := map snd (downloadZip raw) in
  let look := fun m => (geometry m, material m) in
  map look (firstn 4 exported) = map look (firstn 4 pieces) /\
  map look (skipn 4 exported) = map look (firstn 2 (skipn 8 pieces)) /\
  Forall (fun m => position m = origin /\ rotation m = origin) exported /\
  List.length exported = 6%nat.
Proof.
  intros Hg. cbn zeta. rewrite (buildFrame_resolved g raw w Hg).
  unfold downloadZip, framePieces, composedPieces.
  cbn [snd frameGroup children map firstn skipn].
  unfold setPosition, setRotationZ. cbn [geometry material position rotation].
  split; [reflexivity|]. split; [reflexivity|]. split; [|reflexivity].
  repeat constructor.
Qed.



Lemma showsNothing_step (g : GlobalObject) (p : Params) (w : World) :
  g "lipDepth" = None -> showsNothing w ->
  showsNothing (snd (buildFrame g p w)).
Proof.
  intros Hg (Hs & Hp & Hsum). rewrite (buildFrame_unresolved g p w Hg).
  unfold showsNothing, framePieces. cbn [snd sceneFrame frameGroup summary children].
  repeat split; [|exact Hsum]. destruct (frameGroup w); [reflexivity | exact Hs].
Qed.

(** X14: where [lipDepth] does not resolve, no sequence of edits ever puts
    a frame in the scene or a summary on the page: started from the initial
    world, the session shows nothing after every input. *)
Theorem session_without_lipDepth_shows_nothing
    (g : GlobalObject) (inputs : list Params) :
  g "lipDepth" = None ->
  showsNothing (runBuilds g inputs initialWorld).
Proof.
  intros Hg.
  assert (Hinv : forall w, showsNothing w -> showsNothing (runBuilds g inputs w)).
  { induction inputs as [|p rest IH]; intros w Hw; [exact Hw|].
    cbn [runBuilds]. apply IH. apply showsNothing_step; assumption. }
  apply Hinv. repeat split.
Qed.



End FrameMore.

(** X11 for the default frame built in the page. *)
Lemma default_frame_layout_is_symmetric :
  let pieces := framePieces (snd (buildFrame browserWindow defaults initialWorld)) in
  map position (firstn 4 (skipn 4 pieces)) = map position (firstn 4 pieces).
Proof.
  apply (@frame_places_copies_at_opposite_positions prismHost browserWindow
           (VElement "lipDepth") defaults initialWorld).
  reflexivity.
Defined.


(** C10 for a wooden frame on the example host and its reseeded twin. *)
Lemma wooden_frame_ignores_the_random_sequence :
  @buildFrame prismHost browserWindow (withStyle "wood" defaults) initialWorld =
  @buildFrame reseededHost browserWindow (withStyle "wood" defaults) initialWorld.
Proof.
  assert (Hs : sameFacilities prismHost reseededHost) by (repeat split).
  apply (@build_draws_on_no_hidden_input prismHost reseededHost Hs browserWindow
           (withStyle "wood" defaults) initialWorld initialWorld).
Defined.

(** X5 for the default parameters. *)
Lemma default_rail_lengths_exceed_the_lips :
  exists lw,
    lipWidth (normalizeParams defaults) = Fin lw /\
    Forall (fun entry =>
              exists L, extrusionDepth (snd entry) = VNumber (Fin L) /\
                        (2 * lw <= L)%Q /\ (0 < L)%Q /\ (L <= 5000000000)%Q)
           (firstn 4 (downloadZip defaults)).
Proof.
  apply (@rail_lengths_exceed_the_lips prismHost defaults); reflexivity.
Defined.


(** X12 for the default frame built in the page. *)
Lemma default_export_matches_the_frame :
  List.length (map snd (downloadZip defaults)) = 6%nat.
Proof.
  apply (@export_matches_the_frame prismHost browserWindow (VElement "lipDepth")
           defaults initialWorld).
  reflexivity.
Defined.


(** X14 for two edits in a realm without the name. *)
Lemma two_edits_without_lipDepth_show_nothing :
  showsNothing (runBuilds bareGlobal [defaults; withStyle "bold" defaults] initialWorld).
Proof.
  apply (@session_without_lipDepth_shows_nothing prismHost bareGlobal).
  reflexivity.
Defined.

(** ** [debounce] *)

Section DebounceFacts.

Import Debounce.

Variable Args : Type.
Variable wait : nat.

Lemma debounced_sets_one_timer (a : Args) (s : State Args) :
  pendingIsCurrent s ->
  timers (debounced wait a s) = [mkTimer (nextId s) (now s + wait)%nat a] /\
  t (debounced wait a s) = Some (nextId s) /\
  now (debounced wait a s) = now s /\
  fnCalls (debounced wait a s) = fnCalls s.
Proof.
  intros Hs. unfold debounced, setTimeout, clearTimeout.
  destruct Hs as [Hnil | (tm & Htm & Ht)].
  - destruct (t s); cbn; rewrite Hnil; repeat split.
  - rewrite Ht. cbn. rewrite Htm. cbn. rewrite Nat.eqb_refl. cbn. repeat split.
Qed.

Lemma step_keeps_pendingIsCurrent (s : State Args) (e : Event Args) :
  pendingIsCurrent s -> pendingIsCurrent (step wait s e).
Proof.
  intros Hs. destruct e as [a | ms]; cbn [step].
  - destruct (debounced_sets_one_timer a Hs) as (Htm & Ht & _).
    right. eexists. split; [exact Htm | exact Ht].
  - destruct Hs as [Hnil | (tm & Htm & Ht)].
    + left. unfold elapse. cbn. rewrite Hnil. reflexivity.
    + unfold pendingIsCurrent, elapse. cbn [timers t]. rewrite Htm. cbn [filter].
      destruct (Nat.leb (due tm) (now s + ms)); cbn [negb].
      * left. reflexivity.
      * right. exists tm. split; [reflexivity | exact Ht].
Qed.

Lemma run_keeps_pendingIsCurrent (events : list (Event Args)) (s : State Args) :
  pendingIsCurrent s -> pendingIsCurrent (run wait events s).
Proof.
  revert s. induction events as [|e rest IH]; intros s Hs; [exact Hs|].
  cbn [run fold_left]. apply IH. apply step_keeps_pendingIsCurrent. exact Hs.
Qed.

(** X15: however the calls and the pauses interleave, a debounced function
    has at most one timeout pending, and it is the one its variable [t]
    names: every call cancels the timeout of the call before. *)
Theorem debounce_keeps_one_pending_timeout (events : list (Event Args)) :
  let s := run wait events (start Args) in
  (List.length (timers s) <= 1)%nat /\
  (forall tm, In tm (timers s) -> t s = Some (timerId tm)).
Proof.
  cbn zeta.
  assert (H : pendingIsCurrent (run wait events (start Args)))
    by (apply run_keeps_pendingIsCurrent; left; reflexivity).
  destruct H as [Hnil | (tm & Htm & Ht)].
  - rewrite Hnil. split; [cbn; auto | intros tm []].
  - rewrite Htm. split; [cbn; auto|].
    intros tm' [<- | []]. exact Ht.
Qed.

Lemma last_cons_default (A : Type) (l : list A) :
  forall x d : A, last (x :: l) d = last l x.
Proof.
  induction l as [|y l IH]; intros x d; [reflexivity|].
  change (last (x :: y :: l) d) with (last (y :: l) d).
  rewrite !IH. reflexivity.
Qed.

Lemma burst_fires_last (calls : list (nat * Args)) (d : nat) :
  Forall (fun c => (fst c < wait)%nat) calls -> (wait <= d)%nat ->
  forall (s : State Args) (id : nat) (a : Args),
    timers s = [mkTimer id (now s + wait)%nat a] -> t s = Some id ->
    let s' := run wait (burst calls ++ [Elapse Args d]) s in
    fnCalls s' = (fnCalls s ++ [last (map snd calls) a])%list /\ timers s' = [].
Proof.
  intros Hgaps Hd. induction Hgaps as [|[dt a'] rest Hdt _ IH]; intros s id a Htm Ht.
  - cbn. unfold elapse. cbn [timers fnCalls]. rewrite Htm. cbn [filter due].
    assert (E : Nat.leb (now s + wait) (now s + d) = true)
      by (apply Nat.leb_le; lia).
    rewrite E. cbn. split; reflexivity.
  - cbn [fst] in Hdt. cbn [burst flat_map app map snd fst].
    change (flat_map (fun c : nat * Args => [Elapse Args (fst c); Call (snd c)]) rest)
      with (burst rest).
    cbn [run fold_left step].
    set (s1 := elapse dt s).
    assert (Htm1 : timers s1 = [mkTimer id (now s + wait)%nat a]).
    { unfold s1, elapse. cbn [timers]. rewrite Htm. cbn [filter due].
      assert (E : Nat.leb (now s + wait) (now s + dt) = false)
        by (apply Nat.leb_gt; lia).
      rewrite E. reflexivity. }
    assert (Hcalls1 : fnCalls s1 = fnCalls s).
    { unfold s1, elapse. cbn [fnCalls]. rewrite Htm. cbn [filter due].
      assert (E : Nat.leb (now s + wait) (now s + dt) = false)
        by (apply Nat.leb_gt; lia).
      rewrite E. cbn. apply app_nil_r. }
    assert (Hcur : pendingIsCurrent s1).
    { right. eexists. split; [exact Htm1 | exact Ht]. }
    destruct (debounced_sets_one_timer a' Hcur) as (Htm2 & Ht2 & Hnow2 & Hcalls2).
    set (s2 := debounced wait a' s1) in *.
    rewrite <- Hnow2 in Htm2.
    destruct (IH s2 (nextId s1) a' Htm2 Ht2) as (Hfn & Hleft).
    fold (run wait (burst rest ++ [Elapse Args d]) s2).
    split; [|exact Hleft].
    rewrite Hfn, Hcalls2, Hcalls1, last_cons_default. reflexivity.
Qed.

(** X16: only the last call of a burst takes effect, once.  From any state a
    debounced function can reach: a call, then any number of further calls
    each less than [wait] after the one before, then a pause of at least
    [wait], make [fn] run exactly once more, with the arguments of the last
    call, and leave no timeout pending. *)
Theorem debounce_fires_once_with_the_last_arguments
    (history : list (Event Args)) (first : Args) (calls : list (nat * Args)) (d : nat) :
  Forall (fun c => (fst c < wait)%nat) calls -> (wait <= d)%nat ->
  let s := run wait history (start Args) in
  let s' := run wait (Call first :: burst calls ++ [Elapse Args d]) s in
  fnCalls s' = (fnCalls s ++ [last (map snd calls) first])%list /\
  timers s' = [].
Proof.
  intros Hgaps Hd. cbn zeta.
  set (s := run wait history (start Args)).
  assert (Hs : pendingIsCurrent s)
    by (apply run_keeps_pendingIsCurrent; left; reflexivity).
  destruct (debounced_sets_one_timer first Hs) as (Htm & Ht & Hnow & Hcalls).
  cbn [run fold_left step].
  rewrite <- Hnow in Htm.
  destruct (burst_fires_last Hgaps Hd _ Htm Ht) as (Hfn & Hleft).
  split; [|exact Hleft].
  rewrite <- Hcalls. exact Hfn.
Qed.

Lemma filter_split_length (A : Type) (f : A -> bool) (l : list A) :
  (List.length (filter f l) + List.length (filter (fun x => negb (f x)) l)
   = List.length l)%nat.
Proof.
  induction l as [|x l IH]; [reflexivity|].
  cbn [filter]. destruct (f x); cbn [negb List.length]; lia.
Qed.

Lemma step_budget (s : State Args) (e : Event Args) :
  (List.length (fnCalls (step wait s e)) + List.length (timers (step wait s e))
   <= List.length (fnCalls s) + List.length (timers s) + countCalls [e])%nat.
Proof.
  destruct e as [a | ms]; cbn [step countCalls filter List.length].
  - unfold debounced, setTimeout, clearTimeout.
    destruct (t s) as [i|]; cbn [timers fnCalls]; rewrite length_app; cbn [List.length].
    + pose proof (filter_length_le (fun tm => negb (Nat.eqb (timerId tm) i)) (timers s)).
      lia.
    + lia.
  - unfold elapse. cbn [timers fnCalls]. rewrite length_app, length_map.
    pose proof (filter_split_length (fun tm => Nat.leb (due tm) (now s + ms)) (timers s)).
    lia.
Qed.

Lemma run_budget (events : list (Event Args)) (s : State Args) :
  (List.length (fnCalls (run wait events s)) + List.length (timers (run wait events s))
   <= List.length (fnCalls s) + List.length (timers s) + countCalls events)%nat.
Proof.
  revert s. induction events as [|e rest IH]; intros s; [cbn; lia|].
  cbn [run fold_left]. fold (run wait rest (step wait s e)).
  pose proof (IH (step wait s e)) as H1.
  pose proof (step_budget s e) as H2.
  assert (Hc : countCalls (e :: rest) = (countCalls [e] + countCalls rest)%nat).
  { unfold countCalls. cbn [filter]. destruct e; cbn [List.length]; lia. }
  lia.
Qed.

(** X18: [fn] never runs more often than the debounced function was called. *)
Theorem debounce_never_multiplies_calls (events : list (Event Args)) :
  (List.length (fnCalls (run wait events (start Args))) <= countCalls events)%nat.
Proof.
  pose proof (run_budget events (start Args)) as H. cbn in H. lia.
Qed.

End DebounceFacts.

(** X16 for three quick edits and the 180 ms of [attachListeners]. *)
Lemma three_quick_edits_fire_once :
  Debounce.fnCalls
    (Debounce.run 180%nat
       (Debounce.Call "a" :: Debounce.burst [(50%nat, "b"); (120%nat, "c")]
          ++ [Debounce.Elapse string 180%nat])%list
       (Debounce.run 180%nat [] (Debounce.start string)))
  = ["c"].
Proof.
  apply (@debounce_fires_once_with_the_last_arguments string 180%nat [] "a"
           [(50%nat, "b"); (120%nat, "c")] 180%nat).
  - repeat constructor.
  - apply Nat.le_refl.
Defined.

(** ** The two revisions side by side *)

Section Revisions.

Context {host : Host}.

Lemma app_js_buildFrame_world (raw : Params) (w : World) :
  AppJs.buildFrame raw w =
  (Normal tt,
   {| frameGroup := Some (mkGroup (appJsPieces (normalizeParams raw)));
      sceneFrame := Some (mkGroup (appJsPieces (normalizeParams raw)));
      summary := Some (composedSummary (normalizeParams raw)) |}).
Proof.
  unfold AppJs.buildFrame, bind, getWorld, setSceneFrame, setFrameGroup,
    setSummary, putWorld, ret, bind, getWorld, putWorld, ret.
  cbn zeta. destruct (frameGroup w); reflexivity.
Qed.

Lemma app_js_overlay_geometry (length : number) (orientation : string) (p : Params) :
  geometry (AppJs.createLipOverlay length orientation p) =
  geometry (createLipOverlay length orientation p).
Proof. reflexivity. Qed.

Lemma appJsPieces_agree (v : value) (p : Params) :
  List.length (appJsPieces p) = 8%nat /\
  map position (appJsPieces p) = map position (firstn 8 (composedPieces v p)) /\
  map geometry (skipn 4 (appJsPieces p)) =
    map geometry (firstn 4 (skipn 4 (composedPieces v p))).
Proof.
  unfold appJsPieces, composedPieces. cbn zeta.
  cbn [List.length map firstn skipn]. unfold setPosition.
  cbn [position geometry]. rewrite !app_js_overlay_geometry.
  split; [reflexivity|]. split; reflexivity.
Qed.

(** X19: the earlier revision, [src/js/app.js], reads no global: its
    [buildFrame] returns in every realm with a frame of eight meshes, and
    these sit where [part_000] puts its rails and overlays, carry the same
    overlay geometry and give the same summary. *)
Theorem app_js_frame_agrees_with_part_000
    (g : GlobalObject) (v : value) (raw : Params) (w : World) :
  g "lipDepth" = Some v ->
  let old := AppJs.buildFrame raw w in
  let new := buildFrame g raw w in
  fst old = Normal tt /\
  List.length (framePieces (snd old)) = 8%nat /\
  sceneFrame (snd old) = frameGroup (snd old) /\
  map position (framePieces (snd old)) =
    map position (firstn 8 (framePieces (snd new))) /\
  map geometry (skipn 4 (framePieces (snd old))) =
    map geometry (firstn 4 (skipn 4 (framePieces (snd new)))) /\
  summary (snd old) = summary (snd new).
Proof.
  intros Hg. cbn zeta.
  rewrite (buildFrame_resolved g raw w Hg), app_js_buildFrame_world.
  destruct (appJsPieces_agree v (normalizeParams raw)) as (Hlen & Hpos & Hgeo).
  unfold framePieces. cbn [fst snd frameGroup sceneFrame summary children].
  split; [reflexivity|]. split; [exact Hlen|]. split; [reflexivity|].
  split; [exact Hpos|]. split; [exact Hgeo | reflexivity].
Qed.

End Revisions.

(** X19 for the default frame built in the page. *)
Lemma app_js_default_frame_agrees :
  summary (snd (AppJs.buildFrame defaults initialWorld)) =
  summary (snd (buildFrame browserWindow defaults initialWorld)).
Proof.
  apply (@app_js_frame_agrees_with_part_000 prismHost browserWindow
           (VElement "lipDepth") defaults initialWorld).
  reflexivity.
Defined.
